(** * finflow: savings goals, storage gateway and derived metrics

    A shallow embedding of [models.py] (the [Database] gateway and the
    [SavingsGoal], [Account], [Transaction] and [User] repositories) and of
    [services.py] ([SavingsService]), followed by the properties of the
    specification that are stated about them.

    Conventions of the embedding.
    - Monetary amounts and percentages are exact rationals ([Qc]): the data
      model calls for decimal-precision numbers, so the rounding of binary
      floating point is outside this development.
    - A Python [str] is a [string] of its UTF-8 bytes; byte-wise order on
      UTF-8 is code-point order, which is what both Python and SQLite's
      default collation compare by.
    - A row returned by sqlite3 and turned into a [dict] is a record with one
      field per column named in the INSERT statement of its table.
    - A method that talks to the database is a computation in the monad [M]:
      it reads an environment (clock, failures of the driver, library
      functions), threads the database and either returns or raises. *)

From Stdlib Require Import ZArith QArith Qcanon Qround String Lia Lqa Sorted.
From stdpp Require Import gmap strings list fin_maps numbers.

Open Scope Z_scope.

(** ** Python values and exceptions *)

(** The exceptions the two modules can raise.  [StorageError] stands for
    [sqlite3.Error] and its subclasses. *)
Inductive exn :=
| ValueError (msg : string)
| StorageError
| OverflowError
| ZeroDivisionError.

Inductive result (A : Type) :=
| Ok (a : A)
| Raise (e : exn).
Arguments Ok {A} a.
Arguments Raise {A} e.

#[global] Instance exn_eq_dec : EqDecision exn.
Proof. solve_decision. Defined.
#[global] Instance result_eq_dec `{EqDecision A} : EqDecision (result A).
Proof. solve_decision. Defined.

Definition is_ok {A} (r : result A) : bool :=
  match r with Ok _ => true | Raise _ => false end.

(** Python's [min(a, b)] and [max(a, b)] on two arguments: the second one is
    taken only when it is strictly smaller (larger). *)
Definition py_min (a b : Qc) : Qc := if bool_decide (b < a)%Qc then b else a.
Definition py_max (a b : Qc) : Qc := if bool_decide (a < b)%Qc then b else a.

(** [sum(xs)]: a left fold that starts from 0. *)
Definition py_sum (xs : list Qc) : Qc := fold_left Qcplus xs 0%Qc.

(** True division [a / b]. *)
Definition py_div (a b : Qc) : result Qc :=
  if bool_decide (b = 0%Qc) then Raise ZeroDivisionError else Ok (a / b)%Qc.

(** Rounding to the nearest integer, ties to the even neighbour. *)
Definition round_half_even (q : Q) : Z :=
  let f := Qfloor q in
  match (q - inject_Z f ?= 1 # 2)%Q with
  | Lt => f
  | Gt => f + 1
  | Eq => if Z.even f then f else f + 1
  end.

(** [round(x, ndigits)] for [ndigits >= 0]. *)
Definition py_round (x : Qc) (ndigits : nat) : Qc :=
  let scale := (10 ^ Z.of_nat ndigits)%Z in
  (Qc_of_Z (round_half_even (x * inject_Z scale)%Q) / Qc_of_Z scale)%Qc.

(** ** datetime *)

(** A [datetime] is its number of microseconds since [datetime.min]
    (0001-01-01T00:00:00); [datetime.max] is 9999-12-31T23:59:59.999999. *)
Definition datetime := Z.
Definition MICROS_PER_DAY : Z := 86400000000.
Definition DATETIME_MAX : Z := 3652059 * MICROS_PER_DAY - 1.

(** [timedelta(days=d)] raises [OverflowError] beyond 999999999 days. *)
Definition timedelta (days : Z) : result Z :=
  if bool_decide (Z.abs days <= 999999999) then Ok (days * MICROS_PER_DAY)
  else Raise OverflowError.

(** [d - td] raises [OverflowError] outside [datetime.min, datetime.max]. *)
Definition datetime_sub (d : datetime) (td : Z) : result datetime :=
  let r := d - td in
  if bool_decide (0 <= r <= DATETIME_MAX) then Ok r else Raise OverflowError.

(** ** Rows

    Row ids are the integers SQLite assigns on insert, and owner identifiers
    are opaque strings, as [services.py] passes them; the [str] and [int]
    annotations of the id parameters are not enforced by Python.  A column is
    optional when the parameter that fills it is [Optional]. *)

Module GoalRow.
Record t := mk {
  id : Z;
  name : string;
  targetAmount : Qc;
  currentAmount : Qc;
  deadline : option string;
  userId : option string;
  createdAt : string;
  updatedAt : string }.
#[global] Instance eq_dec : EqDecision t.
Proof. solve_decision. Defined.
End GoalRow.

Module AccountRow.
Record t := mk {
  id : Z;
  name : string;
  bank : string;
  accountNumber : string;
  currentBalance : Qc;
  createdAt : string;
  updatedAt : string }.
#[global] Instance eq_dec : EqDecision t.
Proof. solve_decision. Defined.
End AccountRow.

(** [category] is [None] when the row's dict carries no ['category'] key, the
    case [dict.get] has a default for. *)
Module TransactionRow.
Record t := mk {
  id : Z;
  accountId : option Z;
  amount : Qc;
  category : option string;
  description : string;
  date : string;
  type : string;
  createdAt : string;
  updatedAt : string }.
#[global] Instance eq_dec : EqDecision t.
Proof. solve_decision. Defined.
End TransactionRow.

Module UserRow.
Record t := mk {
  id : Z;
  username : string;
  name : string;
  email : string;
  passwordHash : string;
  phone : option string;
  createdAt : string;
  updatedAt : string }.
#[global] Instance eq_dec : EqDecision t.
Proof. solve_decision. Defined.
End UserRow.

(** ** The database, the environment and the monad *)

Record database := mk_database {
  tbl_SavingsGoal : list GoalRow.t;
  tbl_Account : list AccountRow.t;
  tbl_Transaction : list TransactionRow.t;
  tbl_User : list UserRow.t }.
#[global] Instance database_eq_dec : EqDecision database.
Proof. solve_decision. Defined.

(** What can go wrong in one call of the gateway, at most one step per call:
    opening the connection, [cur.execute] (the driver or SQLite rejecting
    the statement: locked file, missing table, violated constraint, text it
    cannot parse), fetching the rows, or [conn.commit]. *)
Inductive fault :=
| NoFault
| ConnectFault
| ExecuteFault
| FetchFault
| CommitFault.
#[global] Instance fault_eq_dec : EqDecision fault.
Proof. solve_decision. Defined.

(** What is outside the two modules: the system clock (its n-th reading),
    the behaviour of the driver at the n-th gateway call, and the library
    functions [datetime.isoformat], [generate_password_hash] and
    [check_password_hash]. *)
Record env := mk_env {
  clock : nat -> datetime;
  faults : nat -> fault;
  isoformat : datetime -> string;
  generate_password_hash : string -> string;
  check_password_hash : string -> string -> bool }.

(** A failure met by the gateway: one it raised to its caller, or a failure
    of [fetchall] that [Database.execute] replaced by an empty result. *)
Inductive failure :=
| GatewayRaised (call : nat) (f : fault)
| FetchSwallowed (call : nat).
#[global] Instance failure_eq_dec : EqDecision failure.
Proof. solve_decision. Defined.

(** [calls] and [ticks] count the gateway calls and clock readings made so
    far; [log] is a record of the failures met, newest first, kept for the
    statements about error handling (no method reads it). *)
Record state := mk_state {
  db : database;
  calls : nat;
  ticks : nat;
  log : list failure }.
#[global] Instance state_eq_dec : EqDecision state.
Proof. solve_decision. Defined.

Definition M (A : Type) : Type := env -> state -> result A * state.

Definition ret {A} (a : A) : M A := fun _ s => (Ok a, s).

Definition raise {A} (x : exn) : M A := fun _ s => (Raise x, s).

Definition bind {A B} (m : M A) (k : A -> M B) : M B :=
  fun e s =>
    match m e s with
    | (Ok a, s') => k a e s'
    | (Raise x, s') => (Raise x, s')
    end.

(** [try: m  except Exception: h]: every exception of [exn] is an
    [Exception]. *)
Definition try_except {A} (m : M A) (h : exn -> M A) : M A :=
  fun e s =>
    match m e s with
    | (Ok a, s') => (Ok a, s')
    | (Raise x, s') => h x e s'
    end.

(** A pure computation that may raise. *)
Definition lift {A} (r : result A) : M A := fun _ s => (r, s).

Declare Scope py_scope.
Delimit Scope py_scope with py.
Notation "'let!' x ':=' m 'in' k" := (bind m (fun x => k))
  (at level 10, x name, m at level 100, k at level 200, only parsing) : py_scope.
Open Scope py_scope.

(** [datetime.now()] *)
Definition datetime_now : M datetime :=
  fun e s =>
    (Ok (clock e (ticks s)),
     mk_state (db s) (calls s) (S (ticks s)) (log s)).

(** [datetime.now().isoformat()] *)
Definition now_isoformat : M string :=
  fun e s =>
    (Ok (isoformat e (clock e (ticks s))),
     mk_state (db s) (calls s) (S (ticks s)) (log s)).

(** ** SQL statements

    A statement is embedded as the function it denotes on the database: the
    database after it and the rows (or the row id) it yields. *)
Definition statement (R : Type) : Type := database -> database * list R.
Definition insert_statement : Type := database -> database * Z.

(** [ORDER BY key DESC] and [ORDER BY key], as insertion sorts that keep rows
    with equal keys in table order, and [LIMIT n]. *)
Fixpoint insert_desc {A} (key : A -> string) (x : A) (l : list A) : list A :=
  match l with
  | [] => [x]
  | y :: l' =>
      if String.ltb (key x) (key y) then y :: insert_desc key x l'
      else x :: y :: l'
  end.

Definition order_by_desc {A} (key : A -> string) (l : list A) : list A :=
  foldr (insert_desc key) [] l.

Fixpoint insert_asc {A} (key : A -> string) (x : A) (l : list A) : list A :=
  match l with
  | [] => [x]
  | y :: l' =>
      if String.ltb (key y) (key x) then y :: insert_asc key x l'
      else x :: y :: l'
  end.

Definition order_by_asc {A} (key : A -> string) (l : list A) : list A :=
  foldr (insert_asc key) [] l.

Definition sql_limit {A} (n : Z) (l : list A) : list A :=
  if bool_decide (n < 0) then l else take (Z.to_nat n) l.

(** The row id SQLite gives to a new row of an INTEGER PRIMARY KEY table:
    one more than the largest id in use. *)
Definition next_rowid (ids : list Z) : Z := 1 + foldr Z.max 0 ids.

(** ** class Database *)

Module Database.

Definition advance (s : state) (d : database) (l : list failure) : state :=
  mk_state d (S (calls s)) (ticks s) l.

Definition fail {A} (s : state) (f : fault) : result A * state :=
  (Raise StorageError, advance s (db s) (GatewayRaised (calls s) f :: log s)).

(** [execute]: a failure of [fetchall] is replaced by no rows and the
    statement is committed; any other failure rolls back and is raised. *)
Definition execute {R} (query : statement R) : M (list R) :=
  fun e s =>
    match faults e (calls s) with
    | ConnectFault => fail s ConnectFault
    | ExecuteFault => fail s ExecuteFault
    | FetchFault =>
        (Ok [], advance s (fst (query (db s))) (FetchSwallowed (calls s) :: log s))
    | CommitFault => fail s CommitFault
    | NoFault =>
        let '(d, rows) := query (db s) in (Ok rows, advance s d (log s))
    end.

(** [execute_one]: [fetchone] is inside the outer [try], so its failure rolls
    back and is raised like the others. *)
Definition execute_one {R} (query : statement R) : M (option R) :=
  fun e s =>
    match faults e (calls s) with
    | ConnectFault => fail s ConnectFault
    | ExecuteFault => fail s ExecuteFault
    | FetchFault => fail s FetchFault
    | CommitFault => fail s CommitFault
    | NoFault =>
        let '(d, rows) := query (db s) in (Ok (head rows), advance s d (log s))
    end.

(** [execute_insert]: nothing is fetched. *)
Definition execute_insert (query : insert_statement) : M Z :=
  fun e s =>
    match faults e (calls s) with
    | ConnectFault => fail s ConnectFault
    | ExecuteFault => fail s ExecuteFault
    | CommitFault => fail s CommitFault
    | FetchFault | NoFault =>
        let '(d, last_id) := query (db s) in (Ok last_id, advance s d (log s))
    end.

End Database.

(** Truthiness of an [Optional[str]] and of an [Optional[int]] argument. *)
Definition truthy_str (o : option string) : bool :=
  match o with Some s => negb (String.eqb s "") | None => false end.
Definition truthy_int (o : option Z) : bool :=
  match o with Some n => negb (n =? 0) | None => false end.

(** ** class SavingsGoal *)

Module SavingsGoal.
Import GoalRow.

Definition with_table (d : database) (t : list GoalRow.t) : database :=
  mk_database t (tbl_Account d) (tbl_Transaction d) (tbl_User d).

Definition has_id (goal_id : Z) (g : GoalRow.t) : bool := id g =? goal_id.

(** INSERT INTO SavingsGoal (name, targetAmount, currentAmount, deadline,
    userId, createdAt, updatedAt) VALUES (?, ?, 0, ?, ?, ?, ?) *)
Definition sql_insert (name : string) (target_amount : Qc)
    (deadline user_id : option string) (now : string) : insert_statement :=
  fun d =>
    let new_id := next_rowid (map id (tbl_SavingsGoal d)) in
    (with_table d
       (tbl_SavingsGoal d ++
        [GoalRow.mk new_id name target_amount 0%Qc deadline user_id now now]),
     new_id).

(** SELECT * FROM SavingsGoal WHERE userId = ? ORDER BY createdAt DESC *)
Definition sql_select_by_user (user_id : string) : statement GoalRow.t :=
  fun d =>
    (d, order_by_desc createdAt
          (filter (fun g => userId g = Some user_id) (tbl_SavingsGoal d))).

(** SELECT * FROM SavingsGoal ORDER BY createdAt DESC *)
Definition sql_select_all : statement GoalRow.t :=
  fun d => (d, order_by_desc createdAt (tbl_SavingsGoal d)).

(** SELECT * FROM SavingsGoal WHERE id = ? *)
Definition sql_select_by_id (goal_id : Z) : statement GoalRow.t :=
  fun d => (d, filter (fun g => has_id goal_id g = true) (tbl_SavingsGoal d)).

(** The SET clause that [update] assembles: one assignment per argument that
    is not None, then updatedAt. *)
Definition set_fields (name : option string) (target_amount current_amount : option Qc)
    (deadline : option string) (now : string) (g : GoalRow.t) : GoalRow.t :=
  GoalRow.mk (id g)
    (default (GoalRow.name g) name)
    (default (targetAmount g) target_amount)
    (default (currentAmount g) current_amount)
    (match deadline with Some dl => Some dl | None => GoalRow.deadline g end)
    (userId g) (createdAt g) now.

(** UPDATE SavingsGoal SET ... WHERE id = ? *)
Definition sql_update (goal_id : Z) (name : option string)
    (target_amount current_amount : option Qc) (deadline : option string)
    (now : string) : statement GoalRow.t :=
  fun d =>
    (with_table d
       (map (fun g => if has_id goal_id g
                      then set_fields name target_amount current_amount deadline now g
                      else g)
            (tbl_SavingsGoal d)),
     []).

(** DELETE FROM SavingsGoal WHERE id = ? *)
Definition sql_delete (goal_id : Z) : statement GoalRow.t :=
  fun d =>
    (with_table d (filter (fun g => has_id goal_id g = false) (tbl_SavingsGoal d)),
     []).

(** UPDATE SavingsGoal SET currentAmount = currentAmount + ?, updatedAt = ?
    WHERE id = ? *)
Definition sql_add_amount (goal_id : Z) (amount : Qc) (now : string)
    : statement GoalRow.t :=
  fun d =>
    (with_table d
       (map (fun g => if has_id goal_id g
                      then GoalRow.mk (id g) (name g) (targetAmount g)
                             (currentAmount g + amount)%Qc (deadline g)
                             (userId g) (createdAt g) now
                      else g)
            (tbl_SavingsGoal d)),
     []).

Definition find_by_id (goal_id : Z) : M (option GoalRow.t) :=
  Database.execute_one (sql_select_by_id goal_id).

Definition create (name : string) (target_amount : Qc)
    (deadline user_id : option string) : M (option GoalRow.t) :=
  let! now := now_isoformat in
  let! new_id := Database.execute_insert
                   (sql_insert name target_amount deadline user_id now) in
  find_by_id new_id.

Definition find_all (user_id : option string) : M (list GoalRow.t) :=
  if truthy_str user_id
  then Database.execute (sql_select_by_user (default "" user_id))
  else Database.execute sql_select_all.

Definition update (goal_id : Z) (name : option string)
    (target_amount current_amount : option Qc) (deadline : option string)
    : M (option GoalRow.t) :=
  let! now := now_isoformat in
  let! _ := Database.execute
              (sql_update goal_id name target_amount current_amount deadline now) in
  find_by_id goal_id.

Definition delete (goal_id : Z) : M bool :=
  let! _ := Database.execute (sql_delete goal_id) in
  ret true.

Definition add_amount (goal_id : Z) (amount : Qc) : M (option GoalRow.t) :=
  let! now := now_isoformat in
  let! _ := Database.execute (sql_add_amount goal_id amount now) in
  find_by_id goal_id.

End SavingsGoal.

(** ** class Account *)

Module Account.
Import AccountRow.

Definition with_table (d : database) (t : list AccountRow.t) : database :=
  mk_database (tbl_SavingsGoal d) t (tbl_Transaction d) (tbl_User d).

(** INSERT INTO Account (name, bank, accountNumber, currentBalance,
    createdAt, updatedAt) VALUES (?, ?, ?, ?, ?, ?) *)
Definition sql_insert (name bank account_number : string)
    (starting_balance : Qc) (now : string) : insert_statement :=
  fun d =>
    let new_id := next_rowid (map id (tbl_Account d)) in
    (with_table d
       (tbl_Account d ++
        [AccountRow.mk new_id name bank account_number starting_balance now now]),
     new_id).

(** SELECT * FROM Account ORDER BY name *)
Definition sql_select_all : statement AccountRow.t :=
  fun d => (d, order_by_asc name (tbl_Account d)).

(** SELECT * FROM Account WHERE id = ? *)
Definition sql_select_by_id (account_id : Z) : statement AccountRow.t :=
  fun d => (d, filter (fun a => id a = account_id) (tbl_Account d)).

(** UPDATE Account SET currentBalance = ?, updatedAt = ? WHERE id = ? *)
Definition sql_update_balance (account_id : Z) (new_balance : Qc)
    (now : string) : statement AccountRow.t :=
  fun d =>
    (with_table d
       (map (fun a => if id a =? account_id
                      then AccountRow.mk (id a) (name a) (bank a)
                             (accountNumber a) new_balance (createdAt a) now
                      else a)
            (tbl_Account d)),
     []).

Definition find_by_id (account_id : Z) : M (option AccountRow.t) :=
  Database.execute_one (sql_select_by_id account_id).

Definition create (name bank account_number : string) (starting_balance : Qc)
    : M (option AccountRow.t) :=
  let! now := now_isoformat in
  let! new_id := Database.execute_insert
                   (sql_insert name bank account_number starting_balance now) in
  find_by_id new_id.

Definition find_all : M (list AccountRow.t) :=
  Database.execute sql_select_all.

Definition update_balance (account_id : Z) (new_balance : Qc) : M bool :=
  let! now := now_isoformat in
  let! _ := Database.execute (sql_update_balance account_id new_balance now) in
  ret true.

End Account.

(** ** class Transaction *)

Module Transaction.
Import TransactionRow.

Definition with_table (d : database) (t : list TransactionRow.t) : database :=
  mk_database (tbl_SavingsGoal d) (tbl_Account d) t (tbl_User d).

(** INSERT INTO Transaction (accountId, amount, category, description, date,
    type, createdAt, updatedAt) VALUES (?, ?, ?, ?, ?, ?, ?, ?) *)
Definition sql_insert (account_id : option Z) (amount : Qc)
    (category description date trans_type now : string) : insert_statement :=
  fun d =>
    let new_id := next_rowid (map id (tbl_Transaction d)) in
    (with_table d
       (tbl_Transaction d ++
        [TransactionRow.mk new_id account_id amount (Some category)
           description date trans_type now now]),
     new_id).

(** SELECT * FROM Transaction WHERE accountId = ? ORDER BY date DESC LIMIT ? *)
Definition sql_select_by_account (account_id limit : Z)
    : statement TransactionRow.t :=
  fun d =>
    (d, sql_limit limit
          (order_by_desc date
             (filter (fun t => accountId t = Some account_id)
                (tbl_Transaction d)))).

(** SELECT * FROM Transaction ORDER BY date DESC LIMIT ? *)
Definition sql_select_all (limit : Z) : statement TransactionRow.t :=
  fun d => (d, sql_limit limit (order_by_desc date (tbl_Transaction d))).

(** SELECT * FROM Transaction WHERE id = ? *)
Definition sql_select_by_id (trans_id : Z) : statement TransactionRow.t :=
  fun d => (d, filter (fun t => id t = trans_id) (tbl_Transaction d)).

(** DELETE FROM Transaction WHERE id = ? *)
Definition sql_delete (trans_id : Z) : statement TransactionRow.t :=
  fun d =>
    (with_table d (filter (fun t => id t ≠ trans_id) (tbl_Transaction d)), []).

Definition find_by_id (trans_id : Z) : M (option TransactionRow.t) :=
  Database.execute_one (sql_select_by_id trans_id).

Definition create (account_id : option Z) (amount : Qc)
    (category description date trans_type : string)
    : M (option TransactionRow.t) :=
  let! now := now_isoformat in
  let! new_id := Database.execute_insert
                   (sql_insert account_id amount category description date
                      trans_type now) in
  find_by_id new_id.

Definition find_all (account_id : option Z) (limit : Z)
    : M (list TransactionRow.t) :=
  if truthy_int account_id
  then Database.execute (sql_select_by_account (default 0 account_id) limit)
  else Database.execute (sql_select_all limit).

Definition delete (trans_id : Z) : M bool :=
  let! _ := Database.execute (sql_delete trans_id) in
  ret true.

End Transaction.

(** ** class User *)

Module User.
Import UserRow.

Definition with_table (d : database) (t : list UserRow.t) : database :=
  mk_database (tbl_SavingsGoal d) (tbl_Account d) (tbl_Transaction d) t.

(** INSERT INTO "User" (username, name, email, passwordHash, phone,
    createdAt, updatedAt) VALUES (?, ?, ?, ?, ?, ?, ?) *)
Definition sql_insert (username name email phash : string)
    (phone : option string) (now : string) : insert_statement :=
  fun d =>
    let new_id := next_rowid (map id (tbl_User d)) in
    (with_table d
       (tbl_User d ++
        [UserRow.mk new_id username name email phash phone now now]),
     new_id).

(** SELECT * FROM "User" WHERE id = ? *)
Definition sql_select_by_id (user_id : Z) : statement UserRow.t :=
  fun d => (d, filter (fun u => id u = user_id) (tbl_User d)).

(** SELECT * FROM "User" WHERE username = ? *)
Definition sql_select_by_username (uname : string) : statement UserRow.t :=
  fun d => (d, filter (fun u => username u = uname) (tbl_User d)).

(** SELECT * FROM "User" WHERE email = ? *)
Definition sql_select_by_email (mail : string) : statement UserRow.t :=
  fun d => (d, filter (fun u => email u = mail) (tbl_User d)).

(** UPDATE "User" SET name = ?, updatedAt = ? WHERE id = ? *)
Definition sql_update_name (user_id : Z) (new_name now : string)
    : statement UserRow.t :=
  fun d =>
    (with_table d
       (map (fun u => if id u =? user_id
                      then UserRow.mk (id u) (username u) new_name (email u)
                             (passwordHash u) (phone u) (createdAt u) now
                      else u)
            (tbl_User d)),
     []).

Definition find_by_id (user_id : Z) : M (option UserRow.t) :=
  Database.execute_one (sql_select_by_id user_id).

Definition create (username name email password : string)
    (phone : option string) : M (option UserRow.t) :=
  let! now := now_isoformat in
  let! phash := (fun e s => (Ok (generate_password_hash e password), s)) in
  let! new_id := Database.execute_insert
                   (sql_insert username name email phash phone now) in
  find_by_id new_id.

Definition find_by_username (username : string) : M (option UserRow.t) :=
  Database.execute_one (sql_select_by_username username).

Definition find_by_email (email : string) : M (option UserRow.t) :=
  Database.execute_one (sql_select_by_email email).

Definition verify_password (stored_hash password : string) : M bool :=
  fun e s => (Ok (check_password_hash e stored_hash password), s).

Definition update_name (user_id : Z) (new_name : string)
    : M (option UserRow.t) :=
  let! now := now_isoformat in
  let! _ := Database.execute (sql_update_name user_id new_name now) in
  find_by_id user_id.

End User.

(** ** str.strip

    [not name.strip()] holds when every character of [name] is whitespace in
    the sense of [str.isspace]: U+0009..U+000D, U+001C..U+0020, U+0085,
    U+00A0, U+1680, U+2000..U+200A, U+2028, U+2029, U+202F, U+205F and
    U+3000, read here in their UTF-8 encoding. *)
Fixpoint all_whitespace (bytes : list N) : bool :=
  match bytes with
  | [] => true
  | b :: l1 =>
      if ((9 <=? b) && (b <=? 13) || (28 <=? b) && (b <=? 32))%N
      then all_whitespace l1
      else
        match l1 with
        | b2 :: l2 =>
            if ((b =? 194) && ((b2 =? 133) || (b2 =? 160)))%N
            then all_whitespace l2
            else
              match l2 with
              | b3 :: l3 =>
                  if ((b =? 225) && (b2 =? 154) && (b3 =? 128)
                      || (b =? 226) && (b2 =? 128)
                         && ((128 <=? b3) && (b3 <=? 138)
                             || (b3 =? 168) || (b3 =? 169) || (b3 =? 175))
                      || (b =? 226) && (b2 =? 129) && (b3 =? 159)
                      || (b =? 227) && (b2 =? 128) && (b3 =? 128))%N
                  then all_whitespace l3
                  else false
              | [] => false
              end
        | [] => false
        end
  end.

Definition strip_is_empty (s : string) : bool :=
  all_whitespace (map Ascii.N_of_ascii (list_ascii_of_string s)).

(** ** class SavingsService *)

Module SavingsService.
Import GoalRow.

(** The dict [calculate_progress] returns: the goal's own entries and three
    more. *)
Record GoalProgress := mk_progress {
  goal : GoalRow.t;
  progress : Qc;
  remaining : Qc;
  isComplete : bool }.

Record Summary := mk_summary {
  totalGoals : Z;
  completedGoals : Z;
  totalTarget : Qc;
  totalCurrent : Qc;
  overallProgress : Qc;
  goals : list GoalProgress }.

Record FinancialReport := mk_report {
  total_income : Qc;
  total_expense : Qc;
  monthly_avg_income : Qc;
  monthly_avg_expense : Qc;
  current_savings : Qc;
  savings_goals : list GoalRow.t;
  expense_by_category : gmap string Qc;
  period_months : Z;
  monthly_income : Qc;
  monthly_expense : Qc;
  other_goals : list GoalRow.t }.

Definition msg_empty_name : string := "Tên mục tiêu không được để trống".
Definition msg_target_not_positive : string := "Số tiền mục tiêu phải lớn hơn 0".
Definition msg_goal_not_found : string := "Không tìm thấy mục tiêu".
Definition msg_amount_not_positive : string := "Số tiền phải lớn hơn 0".

Definition create_goal (name : string) (target_amount : Qc)
    (deadline user_id : option string) : M (option GoalRow.t) :=
  if String.eqb name "" || strip_is_empty name
  then raise (ValueError msg_empty_name)
  else if bool_decide (target_amount <= 0)%Qc
  then raise (ValueError msg_target_not_positive)
  else SavingsGoal.create name target_amount deadline user_id.

Definition get_all_goals (user_id : option string) : M (list GoalRow.t) :=
  SavingsGoal.find_all user_id.

Definition get_goal_by_id (goal_id : Z) : M (option GoalRow.t) :=
  SavingsGoal.find_by_id goal_id.

Definition update_goal (goal_id : Z) (name : option string)
    (target_amount current_amount : option Qc) (deadline : option string)
    : M (option GoalRow.t) :=
  let! goal := SavingsGoal.find_by_id goal_id in
  match goal with
  | None => raise (ValueError msg_goal_not_found)
  | Some _ =>
      SavingsGoal.update goal_id name target_amount current_amount deadline
  end.

Definition delete_goal (goal_id : Z) : M bool :=
  let! goal := SavingsGoal.find_by_id goal_id in
  match goal with
  | None => raise (ValueError msg_goal_not_found)
  | Some _ => SavingsGoal.delete goal_id
  end.

Definition add_amount_to_goal (goal_id : Z) (amount : Qc)
    : M (option GoalRow.t) :=
  if bool_decide (amount <= 0)%Qc
  then raise (ValueError msg_amount_not_positive)
  else SavingsGoal.add_amount goal_id amount.

(** The percentage before rounding: 0 when the target is not positive. *)
Definition raw_progress (target current : Qc) : result Qc :=
  if bool_decide (target <= 0)%Qc then Ok 0%Qc
  else match py_div current target with
       | Ok q => Ok (py_min (Qc_of_Z 100) (q * Qc_of_Z 100))%Qc
       | Raise x => Raise x
       end.

Definition calculate_progress (goal : GoalRow.t) : result GoalProgress :=
  let target := targetAmount goal in
  let current := currentAmount goal in
  match raw_progress target current with
  | Ok progress =>
      let remaining := py_max 0 (target - current)%Qc in
      let is_complete := bool_decide (target <= current)%Qc in
      Ok (mk_progress goal (py_round progress 1) remaining is_complete)
  | Raise x => Raise x
  end.

(** [[calculate_progress(g) for g in goals]] *)
Fixpoint progress_of_all (goals : list GoalRow.t) : result (list GoalProgress) :=
  match goals with
  | [] => Ok []
  | g :: rest =>
      match calculate_progress g with
      | Ok p =>
          match progress_of_all rest with
          | Ok ps => Ok (p :: ps)
          | Raise x => Raise x
          end
      | Raise x => Raise x
      end
  end.

Definition overall (total_target total_current : Qc) : result Qc :=
  if bool_decide (0 < total_target)%Qc
  then match py_div total_current total_target with
       | Ok q => Ok (q * Qc_of_Z 100)%Qc
       | Raise x => Raise x
       end
  else Ok 0%Qc.

Definition get_summary (user_id : option string) : M Summary :=
  let! goals := SavingsGoal.find_all user_id in
  let total_target := py_sum (map targetAmount goals) in
  let total_current := py_sum (map currentAmount goals) in
  let! overall_progress := lift (overall total_target total_current) in
  let completed_count :=
    Z.of_nat (length (filter (fun g => (targetAmount g <= currentAmount g)%Qc) goals)) in
  let! projections := lift (progress_of_all goals) in
  ret (mk_summary (Z.of_nat (length goals)) completed_count total_target
         total_current (py_round overall_progress 1) projections).

(** [(datetime.now() - timedelta(days=months*30)).isoformat()] *)
Definition cutoff_date (months : Z) : M string :=
  let! now := datetime_now in
  let! td := lift (timedelta (months * 30)) in
  let! cutoff := lift (datetime_sub now td) in
  fun e s => (Ok (isoformat e cutoff), s).

(** [t.get('category', 'Khác')] *)
Definition category_of (t : TransactionRow.t) : string :=
  default "Khác" (TransactionRow.category t).

Definition amounts_of_type (ty : string) (ts : list TransactionRow.t) : list Qc :=
  map TransactionRow.amount (filter (fun t => TransactionRow.type t = ty) ts).

(** One turn of the loop that fills [expense_by_category]. *)
Definition add_expense (acc : gmap string Qc) (t : TransactionRow.t)
    : gmap string Qc :=
  if String.eqb (TransactionRow.type t) "EXPENSE"
  then let cat := category_of t in
       <[cat := (default 0 (acc !! cat) + TransactionRow.amount t)%Qc]> acc
  else acc.

(** The body of the [try] block. *)
Definition transaction_totals (months : Z) : M (Qc * Qc * gmap string Qc) :=
  let! cutoff := cutoff_date months in
  let! transactions := Transaction.find_all None 1000 in
  let recent_trans :=
    filter (fun t => String.leb cutoff (TransactionRow.date t) = true) transactions in
  let total_income := py_sum (amounts_of_type "INCOME" recent_trans) in
  let total_expense := py_sum (amounts_of_type "EXPENSE" recent_trans) in
  let expense_by_category := fold_left add_expense recent_trans ∅ in
  ret (total_income, total_expense, expense_by_category).

Definition monthly_avg (total : Qc) (months : Z) : result Qc :=
  if bool_decide (0 < months) then py_div total (Qc_of_Z months) else Ok 0%Qc.

Definition get_financial_data_for_ai (user_id : option string) (months : Z)
    : M FinancialReport :=
  let! goals := SavingsGoal.find_all user_id in
  let! totals :=
    try_except (transaction_totals months) (fun _ => ret (0%Qc, 0%Qc, ∅)) in
  let '(total_income, total_expense, expense_by_category) := totals in
  let current_savings := py_sum (map currentAmount goals) in
  let! monthly_avg_expense := lift (monthly_avg total_expense months) in
  let! monthly_avg_income := lift (monthly_avg total_income months) in
  ret (mk_report total_income total_expense monthly_avg_income
         monthly_avg_expense current_savings goals expense_by_category months
         monthly_avg_income monthly_avg_expense goals).

End SavingsService.

(** * Vocabulary of the statements *)



(** The goal stored under an identifier: the first row that
    [SELECT * FROM SavingsGoal WHERE id = ?] yields. *)
Definition stored_goal (goal_id : Z) (d : database) : option GoalRow.t :=
  head (snd (SavingsGoal.sql_select_by_id goal_id d)).

(** The goals an owner filter selects, in the order [find_all] lists them. *)
Definition matching_goals (user_id : option string) (d : database)
    : list GoalRow.t :=
  if truthy_str user_id
  then snd (SavingsGoal.sql_select_by_user (default "" user_id) d)
  else snd (SavingsGoal.sql_select_all d).

#[global] Instance GoalProgress_eq_dec : EqDecision SavingsService.GoalProgress.
Proof. solve_decision. Defined.
#[global] Instance Summary_eq_dec : EqDecision SavingsService.Summary.
Proof. solve_decision. Defined.
#[global] Instance FinancialReport_eq_dec : EqDecision SavingsService.FinancialReport.
Proof. solve_decision. Defined.

(** Closed facts are settled by evaluation. *)
Ltac by_evaluation := apply (bool_decide_unpack _); vm_compute; exact I.

(** The specification's error taxonomy: both kinds are a [ValueError] in the
    code, told apart by their message. *)
Definition NotFoundError : exn := ValueError SavingsService.msg_goal_not_found.


(** The transactions the report looks at: the 1000 most recent by date. *)
Definition retrieved_transactions (d : database) : list TransactionRow.t :=
  snd (Transaction.sql_select_all 1000 d).

(** The retrieved transactions dated at or after the cutoff. *)
Definition recent (cutoff : string) (d : database) : list TransactionRow.t :=
  filter (fun t => String.leb cutoff (TransactionRow.date t) = true)
    (retrieved_transactions d).




(** Two reports that differ at most in their goals-derived fields. *)
Definition same_transaction_fields (r1 r2 : SavingsService.FinancialReport)
    : Prop :=
  SavingsService.total_income r1 = SavingsService.total_income r2
  ∧ SavingsService.total_expense r1 = SavingsService.total_expense r2
  ∧ SavingsService.monthly_avg_income r1 = SavingsService.monthly_avg_income r2
  ∧ SavingsService.monthly_avg_expense r1 = SavingsService.monthly_avg_expense r2
  ∧ SavingsService.expense_by_category r1 = SavingsService.expense_by_category r2
  ∧ SavingsService.period_months r1 = SavingsService.period_months r2
  ∧ SavingsService.monthly_income r1 = SavingsService.monthly_income r2
  ∧ SavingsService.monthly_expense r1 = SavingsService.monthly_expense r2.

(** ** Operations and the failures they meet *)

(** Every method of the two modules that goes to the database, with its
    arguments. *)
Inductive operation :=
| SavingsGoal_create (name : string) (target_amount : Qc)
    (deadline user_id : option string)
| SavingsGoal_find_all (user_id : option string)
| SavingsGoal_find_by_id (goal_id : Z)
| SavingsGoal_update (goal_id : Z) (name : option string)
    (target_amount current_amount : option Qc) (deadline : option string)
| SavingsGoal_delete (goal_id : Z)
| SavingsGoal_add_amount (goal_id : Z) (amount : Qc)
| Account_create (name bank account_number : string) (starting_balance : Qc)
| Account_find_all
| Account_find_by_id (account_id : Z)
| Account_update_balance (account_id : Z) (new_balance : Qc)
| Transaction_create (account_id : option Z) (amount : Qc)
    (category description date trans_type : string)
| Transaction_find_all (account_id : option Z) (limit : Z)
| Transaction_find_by_id (trans_id : Z)
| Transaction_delete (trans_id : Z)
| User_create (username name email password : string) (phone : option string)
| User_find_by_id (user_id : Z)
| User_find_by_username (username : string)
| User_find_by_email (email : string)
| User_update_name (user_id : Z) (new_name : string)
| Service_create_goal (name : string) (target_amount : Qc)
    (deadline user_id : option string)
| Service_get_all_goals (user_id : option string)
| Service_get_goal_by_id (goal_id : Z)
| Service_update_goal (goal_id : Z) (name : option string)
    (target_amount current_amount : option Qc) (deadline : option string)
| Service_delete_goal (goal_id : Z)
| Service_add_amount_to_goal (goal_id : Z) (amount : Qc)
| Service_get_summary (user_id : option string)
| Service_get_financial_data_for_ai (user_id : option string) (months : Z).

Definition discard {A} (m : M A) : M unit := bind m (fun _ => ret tt).

Definition run (o : operation) : M unit :=
  match o with
  | SavingsGoal_create n t dl u => discard (SavingsGoal.create n t dl u)
  | SavingsGoal_find_all u => discard (SavingsGoal.find_all u)
  | SavingsGoal_find_by_id i => discard (SavingsGoal.find_by_id i)
  | SavingsGoal_update i n t c dl => discard (SavingsGoal.update i n t c dl)
  | SavingsGoal_delete i => discard (SavingsGoal.delete i)
  | SavingsGoal_add_amount i a => discard (SavingsGoal.add_amount i a)
  | Account_create n b a sb => discard (Account.create n b a sb)
  | Account_find_all => discard Account.find_all
  | Account_find_by_id i => discard (Account.find_by_id i)
  | Account_update_balance i b => discard (Account.update_balance i b)
  | Transaction_create a x c ds dt ty => discard (Transaction.create a x c ds dt ty)
  | Transaction_find_all a l => discard (Transaction.find_all a l)
  | Transaction_find_by_id i => discard (Transaction.find_by_id i)
  | Transaction_delete i => discard (Transaction.delete i)
  | User_create un n em pw ph => discard (User.create un n em pw ph)
  | User_find_by_id i => discard (User.find_by_id i)
  | User_find_by_username un => discard (User.find_by_username un)
  | User_find_by_email em => discard (User.find_by_email em)
  | User_update_name i n => discard (User.update_name i n)
  | Service_create_goal n t dl u => discard (SavingsService.create_goal n t dl u)
  | Service_get_all_goals u => discard (SavingsService.get_all_goals u)
  | Service_get_goal_by_id i => discard (SavingsService.get_goal_by_id i)
  | Service_update_goal i n t c dl => discard (SavingsService.update_goal i n t c dl)
  | Service_delete_goal i => discard (SavingsService.delete_goal i)
  | Service_add_amount_to_goal i a => discard (SavingsService.add_amount_to_goal i a)
  | Service_get_summary u => discard (SavingsService.get_summary u)
  | Service_get_financial_data_for_ai u m =>
      discard (SavingsService.get_financial_data_for_ai u m)
  end.







(** ** Sample data *)

Definition sample_env : env :=
  mk_env (fun n => 63900000000000000 + Z.of_nat n) (fun _ => NoFault)
    (fun d => if bool_decide (d < 63900000000000000)
              then "2025-11-30T09:00:00" else "2025-12-30T09:00:00")
    (fun password => password) String.eqb.

Definition goal_fund : GoalRow.t :=
  GoalRow.mk 1 "Emergency Fund" (Qc_of_Z 10000000) (Qc_of_Z 2500000)
    (Some "2025-12-31") (Some "u1") "2025-01-01T08:00:00" "2025-01-01T08:00:00".

Definition goal_bike : GoalRow.t :=
  GoalRow.mk 2 "Bike" (Qc_of_Z 300) (Qc_of_Z 450) None (Some "u2")
    "2025-02-01T08:00:00" "2025-02-01T08:00:00".


Definition sample_transactions : list TransactionRow.t :=
  [ TransactionRow.mk 1 None (Qc_of_Z 50000) (Some "Food") "lunch"
      "2025-12-05" "EXPENSE" "c" "c";
    TransactionRow.mk 2 None (Qc_of_Z 50000) None "misc"
      "2025-12-06" "EXPENSE" "c" "c";
    TransactionRow.mk 3 None (Qc_of_Z 2000000) (Some "Salary") "pay"
      "2025-12-07" "INCOME" "c" "c";
    TransactionRow.mk 4 None (Qc_of_Z 70000) (Some "Food") "old"
      "2024-03-03" "EXPENSE" "c" "c";
    TransactionRow.mk 5 None (Qc_of_Z 30000) (Some "Food") "dinner"
      "2025-12-08" "EXPENSE" "c" "c" ].

Definition sample_db : database :=
  mk_database [goal_fund; goal_bike] [] sample_transactions [].

Definition sample_state : state := mk_state sample_db 0 0 [].

(** The scenario of the specification: three expenses of 50000 under "Food"
    and one income of 2000000, all dated inside a one-month window. *)
Definition scenario_state : state :=
  mk_state
    (mk_database [] []
       [ TransactionRow.mk 1 (Some 1) (Qc_of_Z 50000) (Some "Food") "a"
           "2025-12-10" "EXPENSE" "c" "c";
         TransactionRow.mk 2 (Some 1) (Qc_of_Z 50000) (Some "Food") "b"
           "2025-12-11" "EXPENSE" "c" "c";
         TransactionRow.mk 3 (Some 1) (Qc_of_Z 50000) (Some "Food") "c"
           "2025-12-12" "EXPENSE" "c" "c";
         TransactionRow.mk 4 (Some 1) (Qc_of_Z 2000000) (Some "Salary") "d"
           "2025-12-13" "INCOME" "c" "c" ]
       [])
    0 0 [].


(** A driver that cannot run the second statement it is given. *)
Definition execute_fault_env : env :=
  mk_env (clock sample_env)
    (fun n => match n with 1%nat => ExecuteFault | _ => NoFault end)
    (isoformat sample_env) (generate_password_hash sample_env)
    (check_password_hash sample_env).


(** ** Vocabulary of the further properties *)

(** The two orders [find_all] lists rows in. *)
Definition newer_first {A} (key : A → string) (x y : A) : Prop :=
  String.leb (key y) (key x) = true.

Definition goal_ids (d : database) : list Z :=
  map GoalRow.id (tbl_SavingsGoal d).

(** The rows stored under an identifier in the other tables. *)
Definition stored_account (account_id : Z) (d : database) : option AccountRow.t :=
  head (snd (Account.sql_select_by_id account_id d)).
Definition stored_user (user_id : Z) (d : database) : option UserRow.t :=
  head (snd (User.sql_select_by_id user_id d)).


(** The table an operation belongs to, and what it means for the other
    tables to be as they were. *)
Inductive table := GoalTable | AccountTable | TransactionTable | UserTable.

Definition table_of (o : operation) : table :=
  match o with
  | Account_create _ _ _ _ | Account_find_all | Account_find_by_id _
  | Account_update_balance _ _ => AccountTable
  | Transaction_create _ _ _ _ _ _ | Transaction_find_all _ _
  | Transaction_find_by_id _ | Transaction_delete _ => TransactionTable
  | User_create _ _ _ _ _ | User_find_by_id _ | User_find_by_username _
  | User_find_by_email _ | User_update_name _ _ => UserTable
  | _ => GoalTable
  end.

Definition unchanged_outside (t : table) (d d' : database) : Prop :=
  (t ≠ GoalTable → tbl_SavingsGoal d' = tbl_SavingsGoal d)
  ∧ (t ≠ AccountTable → tbl_Account d' = tbl_Account d)
  ∧ (t ≠ TransactionTable → tbl_Transaction d' = tbl_Transaction d)
  ∧ (t ≠ UserTable → tbl_User d' = tbl_User d).

(** The operations that only read. *)
Definition reads_only (o : operation) : bool :=
  match o with
  | SavingsGoal_find_all _ | SavingsGoal_find_by_id _
  | Account_find_all | Account_find_by_id _
  | Transaction_find_all _ _ | Transaction_find_by_id _
  | User_find_by_id _ | User_find_by_username _ | User_find_by_email _
  | Service_get_all_goals _ | Service_get_goal_by_id _
  | Service_get_summary _ | Service_get_financial_data_for_ai _ _ => true
  | _ => false
  end.

(** A computation keeps a relation between the database it starts from and
    the one it ends with, and a computation never raises a [ValueError]. *)
Definition keeps (R : relation database) {A} (m : M A) : Prop :=
  ∀ e s, R (db s) (db (snd (m e s))).



(** Uniqueness of the goal identifiers, carried from one database to the
    next. *)
Definition ids_stay_unique (d d' : database) : Prop :=
  NoDup (goal_ids d) → NoDup (goal_ids d').

(** A name [create_goal] refuses. *)
Definition blank (name : string) : bool :=
  String.eqb name "" || strip_is_empty name.

(** * Properties *)

(** ** Arithmetic of the number model *)

Section Rounding.

Local Open Scope Q_scope.



Lemma round_half_even_Z (n : Z) : round_half_even (inject_Z n) = n.
Proof.
  unfold round_half_even. rewrite Qfloor_Z.
  destruct (Qcompare_spec (inject_Z n - inject_Z n) (1 # 2)); try lra.
  reflexivity.
Qed.

Lemma round_half_even_mono (p q : Q) :
  p <= q → (round_half_even p <= round_half_even q)%Z.
Proof.
  intros Hpq. pose proof (Qfloor_resp_le _ _ Hpq) as Hf.
  destruct (Z.eq_dec (Qfloor p) (Qfloor q)) as [Heq|Hne].
  - unfold round_half_even. rewrite Heq.
    destruct (Qcompare_spec (p - inject_Z (Qfloor q)) (1 # 2));
      destruct (Qcompare_spec (q - inject_Z (Qfloor q)) (1 # 2));
      try destruct (Z.even (Qfloor q)); try lia; lra.
  - assert (round_half_even p <= Qfloor p + 1)%Z as H1
      by (unfold round_half_even; destruct (_ ?= _); try destruct (Z.even _); lia).
    assert (Qfloor q <= round_half_even q)%Z as H2
      by (unfold round_half_even; destruct (_ ?= _); try destruct (Z.even _); lia).
    lia.
Qed.

End Rounding.

(** Statements on [Qc] are moved to [Q], where [lra] applies. *)
Ltac qc_to_q :=
  unfold Qcdiv, Qcminus in *;
  unfold Qcle, Qclt, Qcplus, Qcopp, Qcmult, Qcinv in *;
  unfold Q2Qc, Qc_of_Z in *;
  cbn [this] in *;
  rewrite ?Qred_correct in *.

Lemma py_round_1_this (x : Qc) :
  (this (py_round x 1) == inject_Z (round_half_even (x * inject_Z 10)) / inject_Z 10)%Q.
Proof.
  unfold py_round. change (10 ^ Z.of_nat 1)%Z with 10%Z. cbv zeta.
  qc_to_q. reflexivity.
Qed.


Lemma py_round_1_mono (x y : Qc) : (x <= y)%Qc → (py_round x 1 <= py_round y 1)%Qc.
Proof.
  intros Hxy.
  assert (round_half_even (x * inject_Z 10) <= round_half_even (y * inject_Z 10))%Z as Hm.
  { apply round_half_even_mono. qc_to_q. change (inject_Z 10) with (10 # 1)%Q. lra. }
  pose proof (py_round_1_this x) as Hx. pose proof (py_round_1_this y) as Hy.
  unfold Qcle. rewrite Hx, Hy.
  rewrite Zle_Qle in Hm. change (inject_Z 10) with (10 # 1)%Q in *.
  apply Qmult_le_compat_r; [exact Hm | discriminate].
Qed.

Lemma py_round_1_of_Z (n : Z) : py_round (Qc_of_Z n) 1 = Qc_of_Z n.
Proof.
  apply Qc_is_canon. rewrite py_round_1_this. cbn [this Qc_of_Z].
  rewrite <- inject_Z_mult, round_half_even_Z, inject_Z_mult.
  change (inject_Z 10) with (10 # 1)%Q. field.
Qed.

Lemma Qc_of_Z_0 : Qc_of_Z 0 = 0%Qc.
Proof. apply Qc_is_canon. reflexivity. Qed.

Lemma py_round_1_zero : py_round 0 1 = 0%Qc.
Proof. rewrite <- Qc_of_Z_0. apply py_round_1_of_Z. Qed.





Lemma ratio_above (c t : Qc) :
  (0 < t)%Qc → (t <= c)%Qc → (Qc_of_Z 100 <= c / t * Qc_of_Z 100)%Qc.
Proof.
  intros Ht Hc. qc_to_q. change (inject_Z 100) with (100 # 1)%Q.
  assert (1 <= c / t)%Q as Hp by (apply Qle_shift_div_l; [exact Ht | lra]).
  unfold Qdiv in Hp. set (u := (c * / t)%Q) in *. clearbody u. lra.
Qed.

(** ** The derived metrics of one goal *)

Section Progress.
Import GoalRow SavingsService.




Lemma raw_progress_positive (t c : Qc) :
  (0 < t)%Qc →
  raw_progress t c = Ok (py_min (Qc_of_Z 100) (c / t * Qc_of_Z 100))%Qc.
Proof.
  intros Ht. unfold raw_progress, py_div.
  rewrite bool_decide_eq_false_2 by (apply Qclt_not_le, Ht).
  rewrite bool_decide_eq_false_2; [reflexivity|].
  intros ->. exact (Qclt_not_le _ _ Ht (Qcle_refl _)).
Qed.

Lemma raw_progress_nonpositive (t c : Qc) :
  (t <= 0)%Qc → raw_progress t c = Ok 0%Qc.
Proof. intros Ht. unfold raw_progress. rewrite bool_decide_eq_true_2; done. Qed.

Lemma raw_progress_total (t c : Qc) : ∃ x, raw_progress t c = Ok x.
Proof.
  destruct (Qclt_le_dec 0 t) as [Ht|Ht].
  - rewrite raw_progress_positive by done. eauto.
  - rewrite raw_progress_nonpositive by done. eauto.
Qed.

Lemma calculate_progress_total (g : GoalRow.t) :
  ∃ x, raw_progress (targetAmount g) (currentAmount g) = Ok x ∧
       calculate_progress g =
         Ok (mk_progress g (py_round x 1)
               (py_max 0 (targetAmount g - currentAmount g))
               (bool_decide (targetAmount g <= currentAmount g)%Qc)).
Proof.
  destruct (raw_progress_total (targetAmount g) (currentAmount g)) as [x Hx].
  exists x. split; [done|]. unfold calculate_progress. rewrite Hx. reflexivity.
Qed.


End Progress.

Section ProgressBounds.
Import GoalRow SavingsService.







End ProgressBounds.

(** ** The gateway *)

Section Gateway.

Lemma execute_one_ok {R} (q : statement R) (e : env) (s : state) :
  faults e (calls s) = NoFault →
  Database.execute_one q e s =
    (Ok (head (snd (q (db s)))), Database.advance s (fst (q (db s))) (log s)).
Proof.
  intros Hf. unfold Database.execute_one. rewrite Hf.
  destruct (q (db s)); reflexivity.
Qed.

Lemma execute_one_raises {R} (q : statement R) (e : env) (s : state) :
  faults e (calls s) ≠ NoFault →
  Database.execute_one q e s = Database.fail s (faults e (calls s)).
Proof.
  intros Hf. unfold Database.execute_one.
  destruct (faults e (calls s)); congruence.
Qed.

Lemma execute_ok {R} (q : statement R) (e : env) (s : state) :
  faults e (calls s) = NoFault →
  Database.execute q e s =
    (Ok (snd (q (db s))), Database.advance s (fst (q (db s))) (log s)).
Proof.
  intros Hf. unfold Database.execute. rewrite Hf.
  destruct (q (db s)); reflexivity.
Qed.

(** What a call of [execute] can do: raise and leave the database alone, or
    commit the statement and return its rows, or none of them when fetching
    failed. *)
Lemma execute_cases {R} (q : statement R) (e : env) (s : state) :
  (faults e (calls s) ≠ NoFault ∧ faults e (calls s) ≠ FetchFault ∧
   Database.execute q e s = Database.fail s (faults e (calls s)))
  ∨ (faults e (calls s) = FetchFault ∧
     Database.execute q e s =
       (Ok [], Database.advance s (fst (q (db s)))
                 (FetchSwallowed (calls s) :: log s)))
  ∨ (faults e (calls s) = NoFault ∧
     Database.execute q e s =
       (Ok (snd (q (db s))), Database.advance s (fst (q (db s))) (log s))).
Proof.
  unfold Database.execute.
  destruct (faults e (calls s)) eqn:Hf; destruct (q (db s));
    try (left; repeat split; discriminate); auto.
Qed.

Lemma with_goal_table_same (d : database) :
  SavingsGoal.with_table d (tbl_SavingsGoal d) = d.
Proof. destruct d; reflexivity. Qed.

(** A row filter that selects nothing leaves a conditional rewrite of the
    rows without effect. *)
Lemma rewrite_nothing {A} (P : A → bool) (f : A → A) (l : list A) :
  head (filter (fun x => P x = true) l) = None →
  map (fun x => if P x then f x else x) l = l.
Proof.
  induction l as [|x l IH]; [reflexivity|]. cbn [map].
  rewrite filter_cons. destruct (P x) eqn:HP.
  - rewrite decide_True by reflexivity. discriminate.
  - rewrite decide_False by discriminate. intros H. rewrite IH by exact H.
    reflexivity.
Qed.

(** The first selected row after a rewrite that does not touch what the
    filter looks at. *)
Lemma rewrite_selected {A} (P : A → bool) (f : A → A) (l : list A) :
  (∀ x, P (f x) = P x) →
  head (filter (fun x => P x = true) (map (fun x => if P x then f x else x) l))
  = f <$> head (filter (fun x => P x = true) l).
Proof.
  intros Hf. induction l as [|x l IH]; [reflexivity|]. cbn [map].
  rewrite !filter_cons. destruct (P x) eqn:HP.
  - rewrite Hf, HP. rewrite !decide_True by reflexivity. reflexivity.
  - rewrite HP. rewrite !decide_False by discriminate. exact IH.
Qed.

End Gateway.

(** ** Goals: lookup, deletion, deposits and partial update *)

Section Goals.
Import GoalRow SavingsService.

Lemma find_by_id_ok (goal_id : Z) (e : env) (s : state) :
  faults e (calls s) = NoFault →
  SavingsGoal.find_by_id goal_id e s =
    (Ok (stored_goal goal_id (db s)), Database.advance s (db s) (log s)).
Proof. intros Hf. unfold SavingsGoal.find_by_id. rewrite execute_one_ok; done. Qed.

Lemma find_by_id_raises (goal_id : Z) (e : env) (s : state) :
  faults e (calls s) ≠ NoFault →
  SavingsGoal.find_by_id goal_id e s = Database.fail s (faults e (calls s)).
Proof. apply execute_one_raises. Qed.

(** C8.  [delete_goal] on an identifier under which no goal is stored fails
    with NotFoundError (the ValueError "goal not found") and leaves the
    database as it was: the lookup is the only gateway call made, the DELETE
    statement is never issued.  When the lookup itself fails, the call still
    ends in an error and the database is still untouched. *)
Theorem C8_delete_goal_missing (goal_id : Z) (e : env) (s : state) :
  stored_goal goal_id (db s) = None →
  let '(r, s') := delete_goal goal_id e s in
  db s' = db s
  ∧ calls s' = S (calls s)
  ∧ is_ok r = false
  ∧ (faults e (calls s) = NoFault → r = Raise NotFoundError).
Proof.
  intros Hnone. unfold delete_goal, bind.
  destruct (decide (faults e (calls s) = NoFault)) as [Hf|Hf].
  - rewrite find_by_id_ok by done. rewrite Hnone. cbn. auto.
  - rewrite find_by_id_raises by done. cbn. repeat split; done.
Qed.

Lemma stored_after_add_amount (goal_id : Z) (amount : Qc) (now : string) (d : database) :
  stored_goal goal_id (fst (SavingsGoal.sql_add_amount goal_id amount now d))
  = (fun g => GoalRow.mk (id g) (name g) (targetAmount g)
                (currentAmount g + amount)%Qc (deadline g) (userId g)
                (createdAt g) now) <$> stored_goal goal_id d.
Proof.
  unfold stored_goal, SavingsGoal.sql_select_by_id, SavingsGoal.sql_add_amount.
  cbn [fst snd SavingsGoal.with_table tbl_SavingsGoal].
  apply (rewrite_selected (SavingsGoal.has_id goal_id)). intros g. reflexivity.
Qed.

Lemma add_amount_missing (goal_id : Z) (amount : Qc) (now : string) (d : database) :
  stored_goal goal_id d = None →
  fst (SavingsGoal.sql_add_amount goal_id amount now d) = d.
Proof.
  intros Hnone. unfold SavingsGoal.sql_add_amount. cbn [fst].
  rewrite (rewrite_nothing (SavingsGoal.has_id goal_id)) by exact Hnone.
  apply with_goal_table_same.
Qed.

(** C10.  [add_amount_to_goal] with a positive amount and an identifier under
    which no goal is stored: no existence check is made, the UPDATE matches
    no row and the database stays as it was; the call never ends in a
    ValueError (so no NotFoundError), and when the gateway works it returns
    None. *)
Theorem C10_add_amount_missing_goal (goal_id : Z) (amount : Qc) (e : env) (s : state) :
  (0 < amount)%Qc →
  stored_goal goal_id (db s) = None →
  let '(r, s') := add_amount_to_goal goal_id amount e s in
  db s' = db s
  ∧ (∀ msg, r ≠ Raise (ValueError msg))
  ∧ (faults e (calls s) = NoFault → faults e (S (calls s)) = NoFault →
       r = Ok None).
Proof.
  intros Hpos Hnone. unfold add_amount_to_goal.
  rewrite bool_decide_eq_false_2 by (apply Qclt_not_le, Hpos).
  unfold SavingsGoal.add_amount, bind, now_isoformat.
  set (now := isoformat e (clock e (ticks s))).
  set (s1 := mk_state (db s) (calls s) (S (ticks s)) (log s)).
  destruct (execute_cases (SavingsGoal.sql_add_amount goal_id amount now) e s1)
    as [(Hf1 & Hf2 & ->)|[(Hf & ->)|(Hf & ->)]]; cbn [Database.fail].
  - cbn in *. repeat split; intros; congruence.
  - rewrite add_amount_missing by exact Hnone.
    destruct (decide (faults e (S (calls s)) = NoFault)) as [Hg|Hg].
    + rewrite find_by_id_ok by exact Hg. cbn in *. rewrite Hnone.
      repeat split; intros; congruence.
    + rewrite find_by_id_raises by exact Hg. cbn in *.
      repeat split; intros; congruence.
  - rewrite add_amount_missing by exact Hnone.
    destruct (decide (faults e (S (calls s)) = NoFault)) as [Hg|Hg].
    + rewrite find_by_id_ok by exact Hg. cbn in *. rewrite Hnone.
      repeat split; intros; congruence.
    + rewrite find_by_id_raises by exact Hg. cbn in *.
      repeat split; intros; congruence.
Qed.



(** One deposit that returns: the UPDATE was committed, and the row read back
    is the stored one. *)
Lemma add_amount_to_goal_returns (goal_id : Z) (amount : Qc) (e : env)
    (s s' : state) (g0 : GoalRow.t) (x : option GoalRow.t) :
  stored_goal goal_id (db s) = Some g0 →
  add_amount_to_goal goal_id amount e s = (Ok x, s') →
  ∃ g', x = Some g' ∧ stored_goal goal_id (db s') = Some g'
      ∧ currentAmount g' = (currentAmount g0 + amount)%Qc
      ∧ targetAmount g' = targetAmount g0.
Proof.
  intros Hg0. unfold add_amount_to_goal. case_bool_decide; [discriminate|].
  unfold SavingsGoal.add_amount, bind, now_isoformat.
  set (now := isoformat e (clock e (ticks s))).
  set (s1 := mk_state (db s) (calls s) (S (ticks s)) (log s)).
  assert (∀ l, let s2 := Database.advance s1
                 (fst (SavingsGoal.sql_add_amount goal_id amount now (db s1))) l in
               SavingsGoal.find_by_id goal_id e s2 = (Ok x, s') →
               ∃ g', x = Some g' ∧ stored_goal goal_id (db s') = Some g'
                   ∧ currentAmount g' = (currentAmount g0 + amount)%Qc
                   ∧ targetAmount g' = targetAmount g0) as Hread.
  { intros l s2.
    destruct (decide (faults e (calls s2) = NoFault)) as [Hf|Hf].
    - rewrite find_by_id_ok by exact Hf. intros Heq.
      assert (x = stored_goal goal_id (db s2)) as -> by congruence.
      assert (s' = Database.advance s2 (db s2) (log s2)) as -> by congruence.
      subst s2 s1. unfold Database.advance. cbn [db].
      rewrite stored_after_add_amount, Hg0. cbn. eauto.
    - rewrite find_by_id_raises by exact Hf. discriminate. }
  destruct (execute_cases (SavingsGoal.sql_add_amount goal_id amount now) e s1)
    as [(_ & _ & ->)|[(_ & ->)|(_ & ->)]].
  - discriminate.
  - apply Hread.
  - apply Hread.
Qed.





Lemma stored_after_update (goal_id : Z) (name : option string)
    (target_amount current_amount : option Qc) (deadline : option string)
    (now : string) (d : database) :
  stored_goal goal_id
    (fst (SavingsGoal.sql_update goal_id name target_amount current_amount
            deadline now d))
  = SavingsGoal.set_fields name target_amount current_amount deadline now
      <$> stored_goal goal_id d.
Proof.
  unfold stored_goal, SavingsGoal.sql_select_by_id, SavingsGoal.sql_update.
  cbn [fst snd SavingsGoal.with_table tbl_SavingsGoal].
  apply (rewrite_selected (SavingsGoal.has_id goal_id)). intros g. reflexivity.
Qed.

(** C7.  [update_goal] with only [current_amount] supplied, on a stored goal
    and with a working gateway, returns the stored row after the update: its
    name, targetAmount and deadline (and id, userId, createdAt) are those it
    had, its currentAmount is the supplied one, and its updatedAt is the
    reading of the clock made by this call, so it is later than the old one
    whenever the clock has moved on. *)
Theorem C7_update_current_amount_only (goal_id : Z) (amount : Qc) (e : env)
    (s : state) (g0 : GoalRow.t) :
  stored_goal goal_id (db s) = Some g0 →
  faults e (calls s) = NoFault →
  faults e (S (calls s)) = NoFault →
  faults e (S (S (calls s))) = NoFault →
  ∃ g' s',
    update_goal goal_id None None (Some amount) None e s = (Ok (Some g'), s')
    ∧ stored_goal goal_id (db s') = Some g'
    ∧ name g' = name g0
    ∧ targetAmount g' = targetAmount g0
    ∧ deadline g' = deadline g0
    ∧ id g' = id g0 ∧ userId g' = userId g0 ∧ createdAt g' = createdAt g0
    ∧ currentAmount g' = amount
    ∧ updatedAt g' = isoformat e (clock e (ticks s))
    ∧ (String.ltb (updatedAt g0) (isoformat e (clock e (ticks s))) = true →
       String.ltb (updatedAt g0) (updatedAt g') = true).
Proof.
  intros Hg0 Hf1 Hf2 Hf3. unfold update_goal, bind at 1.
  rewrite find_by_id_ok by exact Hf1. rewrite Hg0.
  unfold SavingsGoal.update, bind, now_isoformat.
  rewrite execute_ok by exact Hf2. rewrite find_by_id_ok by exact Hf3.
  unfold Database.advance. cbn [db calls ticks log].
  rewrite stored_after_update, Hg0. cbn [fmap option_fmap option_map].
  do 2 eexists. split; [reflexivity|]. cbn [db].
  rewrite stored_after_update, Hg0.
  repeat split; auto.
Qed.

Lemma find_all_ok (user_id : option string) (e : env) (s : state) :
  faults e (calls s) = NoFault →
  SavingsGoal.find_all user_id e s =
    (Ok (matching_goals user_id (db s)), Database.advance s (db s) (log s)).
Proof.
  intros Hf. unfold SavingsGoal.find_all, matching_goals.
  destruct (truthy_str user_id); rewrite execute_ok by exact Hf; reflexivity.
Qed.

(** [find_all] reads: whatever happens, the database is as before, and the
    only exception is the gateway's. *)
Lemma find_all_cases (user_id : option string) (e : env) (s : state) :
  (faults e (calls s) ≠ NoFault ∧ faults e (calls s) ≠ FetchFault ∧
   SavingsGoal.find_all user_id e s = Database.fail s (faults e (calls s)))
  ∨ (faults e (calls s) = FetchFault ∧
     SavingsGoal.find_all user_id e s =
       (Ok [], Database.advance s (db s) (FetchSwallowed (calls s) :: log s)))
  ∨ (faults e (calls s) = NoFault ∧
     SavingsGoal.find_all user_id e s =
       (Ok (matching_goals user_id (db s)), Database.advance s (db s) (log s))).
Proof.
  unfold SavingsGoal.find_all, matching_goals.
  destruct (truthy_str user_id).
  - apply (execute_cases (SavingsGoal.sql_select_by_user (default "" user_id))).
  - apply (execute_cases SavingsGoal.sql_select_all).
Qed.

Lemma overall_total (total_target total_current : Qc) :
  ∃ x, overall total_target total_current = Ok x
     ∧ (¬ (0 < total_target)%Qc → x = 0%Qc).
Proof.
  unfold overall, py_div. case_bool_decide as Hpos.
  - rewrite bool_decide_eq_false_2.
    + eexists. split; [reflexivity | intros H; destruct (H Hpos)].
    + intros ->. exact (Qclt_not_le _ _ Hpos (Qcle_refl _)).
  - eexists. split; [reflexivity | reflexivity].
Qed.

Lemma progress_of_all_total (gs : list GoalRow.t) :
  ∃ ps, progress_of_all gs = Ok ps ∧ length ps = length gs.
Proof.
  induction gs as [|g gs (ps & Hps & Hlen)]; cbn [progress_of_all].
  - exists []. done.
  - destruct (calculate_progress_total g) as (x & _ & ->). rewrite Hps.
    eexists. split; [reflexivity|]. cbn. rewrite Hlen. reflexivity.
Qed.

(** [get_summary] once the goals are loaded: it returns. *)
Lemma get_summary_after_load (user_id : option string) (e : env) (s s1 : state)
    (gs : list GoalRow.t) :
  SavingsGoal.find_all user_id e s = (Ok gs, s1) →
  ∃ sm, get_summary user_id e s = (Ok sm, s1)
      ∧ totalGoals sm = Z.of_nat (length gs)
      ∧ totalTarget sm = py_sum (map targetAmount gs)
      ∧ totalCurrent sm = py_sum (map currentAmount gs)
      ∧ progress_of_all gs = Ok (goals sm).
Proof.
  intros Hload. unfold get_summary, bind at 1. rewrite Hload.
  destruct (overall_total (py_sum (map targetAmount gs))
              (py_sum (map currentAmount gs))) as (x & Hx & _).
  destruct (progress_of_all_total gs) as (ps & Hps & _).
  unfold bind, lift, ret. rewrite Hx, Hps.
  eexists. split; [reflexivity|]. cbn. auto.
Qed.

(** C5.  [get_summary] on an empty goal set returns totalGoals = 0,
    completedGoals = 0, totalTarget = 0, totalCurrent = 0,
    overallProgress = 0 and no goals; and on no goal set at all does it end
    in a division by zero: the division is made only for a positive
    totalTarget. *)
Theorem C5_get_summary_empty :
  (∀ user_id e s,
     matching_goals user_id (db s) = [] →
     faults e (calls s) = NoFault →
     get_summary user_id e s =
       (Ok (mk_summary 0 0 0%Qc 0%Qc 0%Qc []),
        Database.advance s (db s) (log s)))
  ∧ (∀ user_id e s, fst (get_summary user_id e s) ≠ Raise ZeroDivisionError).
Proof.
  split.
  - intros user_id e s Hempty Hf. unfold get_summary, bind.
    rewrite find_all_ok by exact Hf. rewrite Hempty.
    cbn [map length filter]. unfold overall, lift, ret.
    rewrite bool_decide_eq_false_2 by by_evaluation.
    cbn [progress_of_all]. rewrite py_round_1_zero. reflexivity.
  - intros user_id e s.
    destruct (find_all_cases user_id e s)
      as [(_ & _ & Hr)|[(_ & Hr)|(_ & Hr)]].
    + unfold get_summary, bind at 1. rewrite Hr. discriminate.
    + destruct (get_summary_after_load _ _ _ _ _ Hr) as (sm & -> & _).
      discriminate.
    + destruct (get_summary_after_load _ _ _ _ _ Hr) as (sm & -> & _).
      discriminate.
Qed.

End Goals.

(** ** The financial report *)

Section Report.
Import TransactionRow SavingsService.




Lemma monthly_avg_total (total : Qc) (months : Z) :
  ∃ x, monthly_avg total months = Ok x
     ∧ (total = 0%Qc → x = 0%Qc)
     ∧ (¬ 0 < months → x = 0%Qc).
Proof.
  unfold monthly_avg, py_div. case_bool_decide as Hm.
  - rewrite bool_decide_eq_false_2.
    + eexists. split; [reflexivity|]. split; [|intros H; destruct (H Hm)].
      intros ->. unfold Qcdiv. ring.
    + intros H. apply (f_equal this) in H. cbn in H.
      injection H as H. lia.
  - eexists. split; [reflexivity|]. split; reflexivity.
Qed.

Lemma cutoff_date_ok (months : Z) (e : env) (s : state) (td : Z) (cutoff : datetime) :
  timedelta (months * 30) = Ok td →
  datetime_sub (clock e (ticks s)) td = Ok cutoff →
  cutoff_date months e s =
    (Ok (isoformat e cutoff), mk_state (db s) (calls s) (S (ticks s)) (log s)).
Proof.
  intros Htd Hsub. unfold cutoff_date, bind, datetime_now, lift.
  rewrite Htd, Hsub. reflexivity.
Qed.

(** [cutoff_date] makes no gateway call. *)
Lemma cutoff_date_state (months : Z) (e : env) (s : state) :
  snd (cutoff_date months e s) = mk_state (db s) (calls s) (S (ticks s)) (log s).
Proof.
  unfold cutoff_date, bind, datetime_now, lift.
  destruct (timedelta (months * 30)); [|reflexivity].
  destruct (datetime_sub _ _); reflexivity.
Qed.

Lemma transaction_totals_ok (months : Z) (e : env) (s : state) (td : Z)
    (cutoff : datetime) :
  faults e (calls s) = NoFault →
  timedelta (months * 30) = Ok td →
  datetime_sub (clock e (ticks s)) td = Ok cutoff →
  transaction_totals months e s =
    (let rs := recent (isoformat e cutoff) (db s) in
     (Ok (py_sum (amounts_of_type "INCOME" rs),
          py_sum (amounts_of_type "EXPENSE" rs),
          fold_left add_expense rs ∅),
      mk_state (db s) (S (calls s)) (S (ticks s)) (log s))).
Proof.
  intros Hf Htd Hsub. unfold transaction_totals, bind at 1.
  rewrite (cutoff_date_ok _ _ _ _ _ Htd Hsub).
  unfold bind, Transaction.find_all. cbn [truthy_int].
  rewrite execute_ok by exact Hf. reflexivity.
Qed.




(** The report when both retrievals work and the cutoff is a valid date. *)
Lemma report_ok (user_id : option string) (months : Z) (e : env) (s : state)
    (td : Z) (cutoff : datetime) :
  faults e (calls s) = NoFault →
  faults e (S (calls s)) = NoFault →
  timedelta (months * 30) = Ok td →
  datetime_sub (clock e (ticks s)) td = Ok cutoff →
  ∃ r s',
    get_financial_data_for_ai user_id months e s = (Ok r, s')
    ∧ expense_by_category r =
        fold_left add_expense (recent (isoformat e cutoff) (db s)) ∅
    ∧ total_income r =
        py_sum (amounts_of_type "INCOME" (recent (isoformat e cutoff) (db s)))
    ∧ total_expense r =
        py_sum (amounts_of_type "EXPENSE" (recent (isoformat e cutoff) (db s)))
    ∧ savings_goals r = matching_goals user_id (db s).
Proof.
  intros Hf1 Hf2 Htd Hsub. unfold get_financial_data_for_ai, bind at 1.
  rewrite find_all_ok by exact Hf1. unfold bind at 1, try_except.
  rewrite (transaction_totals_ok months e _ td cutoff) by assumption.
  cbv zeta. cbn [db Database.advance].
  set (rs := recent (isoformat e cutoff) (db s)).
  destruct (monthly_avg_total (py_sum (amounts_of_type "EXPENSE" rs)) months)
    as (ae & Hae & _).
  destruct (monthly_avg_total (py_sum (amounts_of_type "INCOME" rs)) months)
    as (ai & Hai & _).
  unfold bind, lift, ret. rewrite Hae, Hai.
  do 2 eexists. split; [reflexivity|]. cbn. auto.
Qed.


(** What follows the loading of the goals, from one state and for two lists
    of goals: the same exception, or two reports that differ in their goals
    only. *)
Lemma report_rest_agrees (months : Z) (e : env) (s1 : state)
    (k : list GoalRow.t → M FinancialReport) (gs1 gs2 : list GoalRow.t) :
  k = (fun goals =>
         let! totals :=
           try_except (transaction_totals months) (fun _ => ret (0%Qc, 0%Qc, ∅)) in
         let '(total_income, total_expense, expense_by_category) := totals in
         let current_savings := py_sum (map GoalRow.currentAmount goals) in
         let! monthly_avg_expense := lift (monthly_avg total_expense months) in
         let! monthly_avg_income := lift (monthly_avg total_income months) in
         ret (mk_report total_income total_expense monthly_avg_income
                monthly_avg_expense current_savings goals expense_by_category
                months monthly_avg_income monthly_avg_expense goals)) →
  match k gs1 e s1, k gs2 e s1 with
  | (Ok r1, s'1), (Ok r2, s'2) => same_transaction_fields r1 r2 ∧ s'1 = s'2
  | (Raise x1, s'1), (Raise x2, s'2) => x1 = x2 ∧ s'1 = s'2
  | _, _ => False
  end.
Proof.
  intros ->. unfold bind.
  destruct (try_except (transaction_totals months) _ e s1)
    as [[[[ti te] m]|x] s2]; [|done].
  unfold lift.
  destruct (monthly_avg te months) as [ae|x]; [|done].
  destruct (monthly_avg ti months) as [ai|x]; [|done].
  unfold ret. split; [|reflexivity]. repeat split.
Qed.

(** C9.  For one state, one environment and one [months], the reports for
    any two owner filters agree on total_income, total_expense, both monthly
    averages and expense_by_category (and on period_months and the two
    monthly aliases): the transactions are retrieved without any owner or
    account filter.  The two calls also raise together, with the same
    exception, and end in the same state. *)
Theorem C9_owner_filter_independence (u1 u2 : option string) (months : Z)
    (e : env) (s : state) :
  match get_financial_data_for_ai u1 months e s,
        get_financial_data_for_ai u2 months e s with
  | (Ok r1, s1), (Ok r2, s2) => same_transaction_fields r1 r2 ∧ s1 = s2
  | (Raise x1, s1), (Raise x2, s2) => x1 = x2 ∧ s1 = s2
  | _, _ => False
  end.
Proof.
  unfold get_financial_data_for_ai.
  set (k := fun goals : list GoalRow.t => bind _ _).
  unfold bind.
  destruct (find_all_cases u1 e s) as [(N1 & N2 & ->)|[(F1 & ->)|(F1 & ->)]];
    destruct (find_all_cases u2 e s) as [(N3 & N4 & ->)|[(F2 & ->)|(F2 & ->)]];
    try congruence.
  - unfold Database.fail. split; reflexivity.
  - apply (report_rest_agrees months). reflexivity.
  - apply (report_rest_agrees months). reflexivity.
Qed.

End Report.

(** ** Propagation of storage failures *)

Section Propagation.
Import SavingsService.














End Propagation.

(** ** The degraded mode of the report *)

Section DegradedMode.
Import GoalRow SavingsService.





End DegradedMode.

(** ** The statements at the sample data *)

Section Samples.
Import GoalRow SavingsService.



(** The negative currentAmount of the counterexample to C4 is one that
    [update_goal] stores without complaint. *)
Example negative_current_amount_is_stored :
  ∃ g s', update_goal 1 None None (Some (Qc_of_Z (-50))) None
            sample_env sample_state = (Ok (Some g), s')
        ∧ currentAmount g = Qc_of_Z (-50)
        ∧ stored_goal 1 (db s') = Some g.
Proof. do 2 eexists. split; [reflexivity|]. split; reflexivity. Qed.

(** The scenario of the specification, with a working gateway. *)
Example report_scenario :
  ∃ r s',
    get_financial_data_for_ai None 1 sample_env scenario_state = (Ok r, s')
    ∧ total_expense r = Qc_of_Z 150000
    ∧ total_income r = Qc_of_Z 2000000
    ∧ expense_by_category r = {[ "Food" := Qc_of_Z 150000 ]}.
Proof.
  destruct (report_ok None 1 sample_env scenario_state (30 * MICROS_PER_DAY)
              (63900000000000000 - 30 * MICROS_PER_DAY)
              eq_refl eq_refl eq_refl eq_refl)
    as (r & s' & Hrun & Hcat & Hinc & Hexp & _).
  exists r, s'. split; [exact Hrun|]. rewrite Hcat, Hinc, Hexp.
  repeat split; by_evaluation.
Qed.


(** C5 for an owner without goals. *)
Lemma C5_witness :
  get_summary (Some "nobody") sample_env sample_state =
    (Ok (mk_summary 0 0 0%Qc 0%Qc 0%Qc []), mk_state sample_db 1 0 []).
Proof.
  destruct C5_get_summary_empty as [Hempty _].
  apply (Hempty (Some "nobody") sample_env sample_state); reflexivity.
Defined.

(** C7 at the sample goal 1. *)
Lemma C7_witness :
  ∃ g' s',
    update_goal 1 None None (Some (Qc_of_Z 3000000)) None sample_env sample_state
      = (Ok (Some g'), s')
    ∧ name g' = "Emergency Fund"
    ∧ targetAmount g' = Qc_of_Z 10000000
    ∧ deadline g' = Some "2025-12-31"
    ∧ currentAmount g' = Qc_of_Z 3000000
    ∧ updatedAt g' = "2025-12-30T09:00:00".
Proof.
  destruct (C7_update_current_amount_only 1 (Qc_of_Z 3000000) sample_env
              sample_state goal_fund eq_refl eq_refl eq_refl eq_refl)
    as (g' & s' & Hrun & _ & Hn & Ht & Hd & _ & _ & _ & Hc & Hu & _).
  exists g', s'. split; [exact Hrun|]. repeat split; assumption.
Defined.

(** C8 at an identifier no goal is stored under. *)
Lemma C8_witness :
  delete_goal 7 sample_env sample_state =
    (Raise NotFoundError, mk_state sample_db 1 0 []).
Proof.
  pose proof (C8_delete_goal_missing 7 sample_env sample_state eq_refl) as H.
  destruct (delete_goal 7 sample_env sample_state) as [r s'] eqn:Hrun.
  destruct H as (_ & _ & _ & Hr). rewrite (Hr eq_refl).
  revert Hrun. unfold delete_goal, bind. cbn. intros [= _ <-]. reflexivity.
Defined.

(** C10 at the same identifier: nothing is raised and nothing written. *)
Lemma C10_witness :
  fst (add_amount_to_goal 7 (Qc_of_Z 5) sample_env sample_state) = Ok None
  ∧ db (snd (add_amount_to_goal 7 (Qc_of_Z 5) sample_env sample_state))
    = sample_db.
Proof.
  assert (0 < Qc_of_Z 5)%Qc as Hpos by by_evaluation.
  pose proof (C10_add_amount_missing_goal 7 (Qc_of_Z 5) sample_env
                sample_state Hpos eq_refl) as H.
  destruct (add_amount_to_goal 7 (Qc_of_Z 5) sample_env sample_state) as [r s'].
  destruct H as (Hdb & _ & Hr). split; [apply Hr; reflexivity | exact Hdb].
Defined.



End Samples.

(** * Further properties *)

(** ** Progress of one goal *)

Section ProgressShape.
Import GoalRow SavingsService.

Lemma py_min_mono_r (a b c : Qc) : (b <= c)%Qc → (py_min a b <= py_min a c)%Qc.
Proof.
  intros Hbc. unfold py_min. repeat case_bool_decide; qc_to_q; lra.
Qed.

Lemma py_max_mono_r (a b c : Qc) : (b <= c)%Qc → (py_max a b <= py_max a c)%Qc.
Proof.
  intros Hbc. unfold py_max. repeat case_bool_decide; qc_to_q; lra.
Qed.

Lemma ratio_mono (c1 c2 t : Qc) :
  (0 < t)%Qc → (c1 <= c2)%Qc →
  (c1 / t * Qc_of_Z 100 <= c2 / t * Qc_of_Z 100)%Qc.
Proof.
  intros Ht Hc. qc_to_q. change (inject_Z 100) with (100 # 1)%Q.
  assert (0 < / t)%Q as Hi by (apply Qinv_lt_0_compat, Ht).
  assert (c1 * / t <= c2 * / t)%Q as Hm
    by (apply Qmult_le_compat_r; [exact Hc | apply Qlt_le_weak, Hi]).
  set (u1 := (c1 * / t)%Q) in *. set (u2 := (c2 * / t)%Q) in *.
  clearbody u1 u2. lra.
Qed.

Lemma py_max_zero_iff (x : Qc) : py_max 0 x = 0%Qc ↔ (x <= 0)%Qc.
Proof.
  unfold py_max. case_bool_decide as H; split.
  - intros ->. apply Qcle_refl.
  - intros Hle. destruct (Qclt_not_le _ _ H Hle).
  - intros _. apply Qcnot_lt_le, H.
  - reflexivity.
Qed.

(** X1.  The three derived entries of [calculate_progress] agree with each
    other: a goal is complete exactly when nothing remains, and a complete
    goal with a positive target shows 100. *)
Theorem progress_complete_iff_nothing_remains (g : GoalRow.t) :
  ∃ p, calculate_progress g = Ok p
     ∧ (isComplete p = true ↔ remaining p = 0%Qc)
     ∧ (isComplete p = true → (0 < targetAmount g)%Qc →
        progress p = Qc_of_Z 100).
Proof.
  destruct (calculate_progress_total g) as (x & Hx & Hp).
  eexists. split; [exact Hp|]. cbn [isComplete remaining progress].
  rewrite bool_decide_eq_true, py_max_zero_iff. split.
  - split; intros H; qc_to_q; lra.
  - intros Hdone Ht. rewrite raw_progress_positive in Hx by done.
    injection Hx as <-. unfold py_min. rewrite bool_decide_eq_false_2.
    + apply py_round_1_of_Z.
    + apply Qcle_not_lt, ratio_above; assumption.
Qed.

(** X2.  For one target, a larger currentAmount never lowers the progress
    and never raises what remains. *)
Theorem progress_monotone (g1 g2 : GoalRow.t) :
  targetAmount g1 = targetAmount g2 →
  (currentAmount g1 <= currentAmount g2)%Qc →
  ∃ p1 p2, calculate_progress g1 = Ok p1 ∧ calculate_progress g2 = Ok p2
         ∧ (progress p1 <= progress p2)%Qc
         ∧ (remaining p2 <= remaining p1)%Qc.
Proof.
  intros Ht Hc.
  destruct (calculate_progress_total g1) as (x1 & Hx1 & Hp1).
  destruct (calculate_progress_total g2) as (x2 & Hx2 & Hp2).
  do 2 eexists. split; [exact Hp1|]. split; [exact Hp2|].
  cbn [progress remaining]. split.
  - apply py_round_1_mono. rewrite <- Ht in Hx2.
    destruct (Qclt_le_dec 0 (targetAmount g1)) as [Hpos|Hneg].
    + rewrite raw_progress_positive in Hx1, Hx2 by done.
      injection Hx1 as <-. injection Hx2 as <-.
      apply py_min_mono_r, ratio_mono; assumption.
    + rewrite raw_progress_nonpositive in Hx1, Hx2 by done.
      injection Hx1 as <-. injection Hx2 as <-. apply Qcle_refl.
  - rewrite <- Ht. apply py_max_mono_r. qc_to_q. lra.
Qed.

(** X2 at the two sample goals' amounts against one target. *)
Lemma progress_monotone_witness :
  ∃ p1 p2,
    calculate_progress goal_fund = Ok p1
    ∧ calculate_progress
        (GoalRow.mk 1 "Emergency Fund" (Qc_of_Z 10000000) (Qc_of_Z 5000000)
           None None "a" "b") = Ok p2
    ∧ (progress p1 <= progress p2)%Qc.
Proof.
  destruct (progress_monotone goal_fund
              (GoalRow.mk 1 "Emergency Fund" (Qc_of_Z 10000000)
                 (Qc_of_Z 5000000) None None "a" "b"))
    as (p1 & p2 & H1 & H2 & Hle & _); [reflexivity | by_evaluation |].
  exists p1, p2. auto.
Defined.

End ProgressShape.

(** ** Rows selected by identifier *)

Section Selection.

Lemma execute_insert_ok (q : insert_statement) (e : env) (s : state) :
  faults e (calls s) = NoFault →
  Database.execute_insert q e s =
    (Ok (snd (q (db s))), Database.advance s (fst (q (db s))) (log s)).
Proof.
  intros Hf. unfold Database.execute_insert. rewrite Hf.
  destruct (q (db s)); reflexivity.
Qed.

(** The identifier of a new row is above every identifier in use. *)
Lemma next_rowid_above (ids : list Z) (i : Z) : i ∈ ids → i < next_rowid ids.
Proof.
  unfold next_rowid. induction ids as [|j ids IH]; [inversion 1|].
  intros [->|Hin]%elem_of_cons; cbn [foldr]; [lia|].
  specialize (IH Hin). lia.
Qed.

Lemma next_rowid_fresh (ids : list Z) : next_rowid ids ∉ ids.
Proof. intros Hin. apply next_rowid_above in Hin. lia. Qed.

(** Appending a row: it is the one selected by a predicate no older row
    meets, and it is invisible to a predicate it does not meet. *)
Lemma select_appended {A} (Q : A → Prop) `{!∀ x, Decision (Q x)}
    (l : list A) (x : A) :
  Forall (fun y => ¬ Q y) l → Q x → head (filter Q (l ++ [x])) = Some x.
Proof.
  intros Hl Hx. rewrite list.filter_app.
  replace (filter Q l) with (@nil A).
  - rewrite filter_cons_True by exact Hx. reflexivity.
  - symmetry. induction Hl as [|y l Hy _ IH]; [reflexivity|].
    rewrite filter_cons_False by exact Hy. exact IH.
Qed.

Lemma select_not_appended {A} (Q : A → Prop) `{!∀ x, Decision (Q x)}
    (l : list A) (x : A) :
  ¬ Q x → filter Q (l ++ [x]) = filter Q l.
Proof.
  intros Hx. rewrite list.filter_app, filter_cons_False by exact Hx.
  apply app_nil_r.
Qed.

(** A rewrite of some rows that a selection cannot tell from the identity. *)
Lemma select_unaffected {A} (Q : A → Prop) `{!∀ x, Decision (Q x)}
    (g : A → A) (l : list A) :
  (∀ x, Q (g x) ↔ Q x) → (∀ x, Q x → g x = x) →
  filter Q (map g l) = filter Q l.
Proof.
  intros Hiff Hid. induction l as [|x l IH]; [reflexivity|]. cbn [map].
  rewrite !filter_cons. destruct (decide (Q x)) as [Hx|Hx].
  - rewrite decide_True by (apply Hiff, Hx). rewrite (Hid x Hx), IH. reflexivity.
  - rewrite decide_False by (rewrite Hiff; exact Hx). exact IH.
Qed.



(** Deleting the selected rows. *)
Lemma select_deleted {A} (Q : A → Prop) `{!∀ x, Decision (Q x)}
    (R : A → Prop) `{!∀ x, Decision (R x)} (l : list A) :
  (∀ x, R x → ¬ Q x) → filter Q (filter R l) = [].
Proof.
  intros Hex. induction l as [|x l IH]; [reflexivity|].
  rewrite (filter_cons R). destruct (decide (R x)) as [Hx|Hx]; [|exact IH].
  rewrite filter_cons_False by (apply Hex, Hx). exact IH.
Qed.

Lemma select_kept {A} (Q : A → Prop) `{!∀ x, Decision (Q x)}
    (R : A → Prop) `{!∀ x, Decision (R x)} (l : list A) :
  (∀ x, Q x → R x) → filter Q (filter R l) = filter Q l.
Proof.
  intros Hsub. rewrite list_filter_filter. apply list_filter_iff.
  intros x. split; [tauto | auto].
Qed.


Lemma has_id_true (i : Z) (g : GoalRow.t) :
  SavingsGoal.has_id i g = true ↔ GoalRow.id g = i.
Proof. unfold SavingsGoal.has_id. apply Z.eqb_eq. Qed.

Lemma has_id_false (i : Z) (g : GoalRow.t) :
  SavingsGoal.has_id i g = false ↔ GoalRow.id g ≠ i.
Proof. unfold SavingsGoal.has_id. apply Z.eqb_neq. Qed.

End Selection.

(** ** Where a ValueError can come from *)

Section ValueErrors.
















End ValueErrors.


(** ** Creating, updating and deleting goals *)

Section GoalOperations.
Import GoalRow SavingsService.

Lemma stored_goal_unfold (i : Z) (d : database) :
  stored_goal i d =
    head (filter (fun g => SavingsGoal.has_id i g = true) (tbl_SavingsGoal d)).
Proof. reflexivity. Qed.

Lemma stored_other_after_update (goal_id other : Z) (name : option string)
    (target_amount current_amount : option Qc) (deadline : option string)
    (now : string) (d : database) :
  other ≠ goal_id →
  stored_goal other
    (fst (SavingsGoal.sql_update goal_id name target_amount current_amount
            deadline now d))
  = stored_goal other d.
Proof.
  intros Hne. rewrite !stored_goal_unfold. unfold SavingsGoal.sql_update.
  cbn [fst SavingsGoal.with_table tbl_SavingsGoal]. f_equal.
  apply (select_unaffected (fun g => SavingsGoal.has_id other g = true)).
  - intros g. destruct (SavingsGoal.has_id goal_id g); reflexivity.
  - intros g Hg. apply has_id_true in Hg.
    rewrite (proj2 (has_id_false goal_id g)) by congruence. reflexivity.
Qed.

Lemma stored_other_after_add_amount (goal_id other : Z) (amount : Qc)
    (now : string) (d : database) :
  other ≠ goal_id →
  stored_goal other (fst (SavingsGoal.sql_add_amount goal_id amount now d))
  = stored_goal other d.
Proof.
  intros Hne. rewrite !stored_goal_unfold. unfold SavingsGoal.sql_add_amount.
  cbn [fst SavingsGoal.with_table tbl_SavingsGoal]. f_equal.
  apply (select_unaffected (fun g => SavingsGoal.has_id other g = true)).
  - intros g. destruct (SavingsGoal.has_id goal_id g); reflexivity.
  - intros g Hg. apply has_id_true in Hg.
    rewrite (proj2 (has_id_false goal_id g)) by congruence. reflexivity.
Qed.

Lemma stored_after_delete (goal_id other : Z) (d : database) :
  stored_goal other (fst (SavingsGoal.sql_delete goal_id d))
  = if decide (other = goal_id) then None else stored_goal other d.
Proof.
  rewrite !stored_goal_unfold. unfold SavingsGoal.sql_delete.
  cbn [fst SavingsGoal.with_table tbl_SavingsGoal].
  destruct (decide (other = goal_id)) as [->|Hne].
  - rewrite select_deleted; [reflexivity|]. intros g Hg. rewrite Hg. discriminate.
  - rewrite select_kept; [reflexivity|]. intros g Hg.
    apply has_id_false. apply has_id_true in Hg. congruence.
Qed.


(** X4.  Creating a goal and reading it back: with a valid name and target
    and a working gateway, [create_goal] returns the row it stored, with the
    given name, target, deadline and owner, currentAmount 0 and createdAt
    equal to updatedAt.  Its identifier was not in use, the row is the one
    now stored under that identifier, and the goals stored before are all
    still there, unchanged. *)
Theorem create_goal_round_trip (name : string) (target_amount : Qc)
    (deadline user_id : option string) (e : env) (s : state) :
  blank name = false →
  (0 < target_amount)%Qc →
  faults e (calls s) = NoFault →
  faults e (S (calls s)) = NoFault →
  ∃ g s',
    create_goal name target_amount deadline user_id e s = (Ok (Some g), s')
    ∧ g = GoalRow.mk (next_rowid (goal_ids (db s))) name target_amount 0%Qc
            deadline user_id (isoformat e (clock e (ticks s)))
            (isoformat e (clock e (ticks s)))
    ∧ (id g ∉ goal_ids (db s))
    ∧ tbl_SavingsGoal (db s') = tbl_SavingsGoal (db s) ++ [g]
    ∧ stored_goal (id g) (db s') = Some g
    ∧ (∀ other, other ≠ id g →
         stored_goal other (db s') = stored_goal other (db s)).
Proof.
  intros Hb Ht Hf1 Hf2. unfold create_goal. fold (blank name). rewrite Hb.
  rewrite bool_decide_eq_false_2 by (apply Qclt_not_le, Ht).
  unfold SavingsGoal.create, bind, now_isoformat.
  rewrite execute_insert_ok by exact Hf1. rewrite find_by_id_ok by exact Hf2.
  set (now := isoformat e (clock e (ticks s))).
  set (g := GoalRow.mk (next_rowid (goal_ids (db s))) name target_amount 0%Qc
              deadline user_id now now).
  assert (Forall (fun y => ¬ SavingsGoal.has_id (id g) y = true)
            (tbl_SavingsGoal (db s))) as Hfresh.
  { apply Forall_forall. intros y Hy Hid. apply has_id_true in Hid.
    apply (next_rowid_fresh (goal_ids (db s))). change (id g ∈ goal_ids (db s)).
    rewrite <- Hid. apply list_elem_of_fmap. exists y.
    split; [reflexivity | apply list_elem_of_In, Hy]. }
  assert (stored_goal (id g) (fst (SavingsGoal.sql_insert name target_amount
            deadline user_id now (db s))) = Some g) as Hstored.
  { rewrite stored_goal_unfold. unfold SavingsGoal.sql_insert.
    cbn [fst SavingsGoal.with_table tbl_SavingsGoal db].
    apply (select_appended _ _ g Hfresh). apply has_id_true. reflexivity. }
  exists g. eexists. split.
  { unfold SavingsGoal.sql_insert at 1. cbn [snd db Database.advance].
    change (next_rowid (map id (tbl_SavingsGoal (db s)))) with (id g).
    rewrite Hstored. reflexivity. }
  split; [reflexivity|]. split; [apply next_rowid_fresh|].
  split; [reflexivity|]. split; [exact Hstored|].
  intros other Hne. cbn [db Database.advance]. rewrite !stored_goal_unfold.
  unfold SavingsGoal.sql_insert. cbn [fst SavingsGoal.with_table tbl_SavingsGoal db].
  rewrite select_not_appended; [reflexivity|].
  intros Hid. apply has_id_true in Hid. exact (Hne (eq_sym Hid)).
Qed.

(** X4 at the sample state. *)
Lemma create_goal_round_trip_witness :
  ∃ g s',
    create_goal "Laptop" (Qc_of_Z 2000) None (Some "u1") sample_env sample_state
      = (Ok (Some g), s')
    ∧ id g = 3 ∧ currentAmount g = 0%Qc ∧ createdAt g = updatedAt g
    ∧ stored_goal 3 (db s') = Some g.
Proof.
  assert (0 < Qc_of_Z 2000)%Qc as Hpos by by_evaluation.
  destruct (create_goal_round_trip "Laptop" (Qc_of_Z 2000) None (Some "u1")
              sample_env sample_state eq_refl Hpos eq_refl eq_refl)
    as (g & s' & Hrun & Hg & _ & _ & Hst & _).
  exists g, s'. split; [exact Hrun|]. rewrite Hg in Hst |- *.
  repeat split. exact Hst.
Defined.

(** X5.  [delete_goal] on a stored goal, with a working gateway, returns
    True; afterwards no goal is stored under the identifier and every other
    goal is stored as before. *)
Theorem delete_goal_removes (goal_id : Z) (e : env) (s : state) (g0 : GoalRow.t) :
  stored_goal goal_id (db s) = Some g0 →
  faults e (calls s) = NoFault →
  faults e (S (calls s)) = NoFault →
  ∃ s',
    delete_goal goal_id e s = (Ok true, s')
    ∧ stored_goal goal_id (db s') = None
    ∧ (∀ other, other ≠ goal_id →
         stored_goal other (db s') = stored_goal other (db s)).
Proof.
  intros Hg0 Hf1 Hf2. unfold delete_goal, bind at 1.
  rewrite find_by_id_ok by exact Hf1. rewrite Hg0.
  unfold SavingsGoal.delete, bind, ret. rewrite execute_ok by exact Hf2.
  eexists. split; [reflexivity|]. cbn [db Database.advance]. split.
  - rewrite stored_after_delete. rewrite decide_True; reflexivity.
  - intros other Hne. rewrite stored_after_delete.
    rewrite decide_False by exact Hne. reflexivity.
Qed.

(** X5 at the sample goal 1: goal 2 stays. *)
Lemma delete_goal_removes_witness :
  ∃ s', delete_goal 1 sample_env sample_state = (Ok true, s')
      ∧ stored_goal 1 (db s') = None
      ∧ stored_goal 2 (db s') = Some goal_bike.
Proof.
  destruct (delete_goal_removes 1 sample_env sample_state goal_fund
              eq_refl eq_refl eq_refl) as (s' & Hrun & Hgone & Hkept).
  exists s'. split; [exact Hrun|]. split; [exact Hgone|].
  rewrite Hkept by discriminate. reflexivity.
Defined.

(** X6.  [update_goal] on an identifier under which no goal is stored fails
    with the ValueError "goal not found", whatever fields are supplied, and
    writes nothing: the lookup is the only gateway call, the UPDATE is never
    issued and the clock is not read. *)
Theorem update_goal_missing (goal_id : Z) (name : option string)
    (target_amount current_amount : option Qc) (deadline : option string)
    (e : env) (s : state) :
  stored_goal goal_id (db s) = None →
  let '(r, s') := update_goal goal_id name target_amount current_amount
                    deadline e s in
  db s' = db s
  ∧ calls s' = S (calls s)
  ∧ ticks s' = ticks s
  ∧ is_ok r = false
  ∧ (faults e (calls s) = NoFault → r = Raise NotFoundError).
Proof.
  intros Hnone. unfold update_goal, bind.
  destruct (decide (faults e (calls s) = NoFault)) as [Hf|Hf].
  - rewrite find_by_id_ok by done. rewrite Hnone. cbn. auto.
  - rewrite find_by_id_raises by done. cbn. repeat split; done.
Qed.

(** X6 at an identifier not in the sample state. *)
Lemma update_goal_missing_witness :
  update_goal 7 (Some "x") None None None sample_env sample_state =
    (Raise NotFoundError, mk_state sample_db 1 0 []).
Proof.
  pose proof (update_goal_missing 7 (Some "x") None None None sample_env
                sample_state eq_refl) as H.
  destruct (update_goal 7 (Some "x") None None None sample_env sample_state)
    as [r s'] eqn:Hrun.
  destruct H as (_ & _ & _ & _ & Hr). rewrite (Hr eq_refl).
  revert Hrun. unfold update_goal, bind. cbn. intros [= _ <-]. reflexivity.
Defined.

(** X7.  [update_goal] on a stored goal, with a working gateway, returns
    the stored row after the update: each supplied field has the supplied
    value, each field left at None keeps its value (so a deadline cannot be
    cleared), id, userId and createdAt are never rewritten, updatedAt is the
    clock reading of the call, and every other goal is stored as before.  No
    supplied value is validated. *)
Theorem update_goal_partial (goal_id : Z) (new_name : option string)
    (target_amount current_amount : option Qc) (new_deadline : option string)
    (e : env) (s : state) (g0 : GoalRow.t) :
  stored_goal goal_id (db s) = Some g0 →
  faults e (calls s) = NoFault →
  faults e (S (calls s)) = NoFault →
  faults e (S (S (calls s))) = NoFault →
  ∃ g' s',
    update_goal goal_id new_name target_amount current_amount new_deadline e s
      = (Ok (Some g'), s')
    ∧ stored_goal goal_id (db s') = Some g'
    ∧ name g' = default (name g0) new_name
    ∧ targetAmount g' = default (targetAmount g0) target_amount
    ∧ currentAmount g' = default (currentAmount g0) current_amount
    ∧ deadline g' = (if new_deadline is Some _ then new_deadline else deadline g0)
    ∧ id g' = id g0 ∧ userId g' = userId g0 ∧ createdAt g' = createdAt g0
    ∧ updatedAt g' = isoformat e (clock e (ticks s))
    ∧ (∀ other, other ≠ goal_id →
         stored_goal other (db s') = stored_goal other (db s)).
Proof.
  intros Hg0 Hf1 Hf2 Hf3. unfold update_goal, bind at 1.
  rewrite find_by_id_ok by exact Hf1. rewrite Hg0.
  unfold SavingsGoal.update, bind, now_isoformat.
  rewrite execute_ok by exact Hf2. rewrite find_by_id_ok by exact Hf3.
  unfold Database.advance. cbn [db calls ticks log].
  rewrite stored_after_update, Hg0. cbn [fmap option_fmap option_map].
  do 2 eexists. split; [reflexivity|]. cbn [db].
  rewrite stored_after_update, Hg0.
  split; [reflexivity|]. cbn. repeat split.
  - destruct new_deadline; reflexivity.
  - intros other Hne. apply stored_other_after_update, Hne.
Qed.

(** X7 at the sample goal 1, renamed and given a new target. *)
Lemma update_goal_partial_witness :
  ∃ g' s',
    update_goal 1 (Some "Rainy day") (Some (Qc_of_Z 500)) None None
      sample_env sample_state = (Ok (Some g'), s')
    ∧ name g' = "Rainy day"
    ∧ targetAmount g' = Qc_of_Z 500
    ∧ currentAmount g' = Qc_of_Z 2500000
    ∧ deadline g' = Some "2025-12-31"
    ∧ stored_goal 2 (db s') = Some goal_bike.
Proof.
  destruct (update_goal_partial 1 (Some "Rainy day") (Some (Qc_of_Z 500)) None
              None sample_env sample_state goal_fund eq_refl eq_refl eq_refl
              eq_refl)
    as (g' & s' & Hrun & _ & Hn & Ht & Hc & Hd & _ & _ & _ & _ & Hother).
  exists g', s'. split; [exact Hrun|]. repeat split; try assumption.
  rewrite Hother by discriminate. reflexivity.
Defined.

(** A deposit that returns has committed the UPDATE and read the row back. *)
Lemma add_amount_to_goal_ok_inv (goal_id : Z) (amount : Qc) (e : env)
    (s s' : state) (x : option GoalRow.t) :
  add_amount_to_goal goal_id amount e s = (Ok x, s') →
  db s' = fst (SavingsGoal.sql_add_amount goal_id amount
                 (isoformat e (clock e (ticks s))) (db s))
  ∧ x = stored_goal goal_id (db s').
Proof.
  unfold add_amount_to_goal. case_bool_decide; [discriminate|].
  unfold SavingsGoal.add_amount, bind, now_isoformat.
  set (now := isoformat e (clock e (ticks s))).
  set (s1 := mk_state (db s) (calls s) (S (ticks s)) (log s)).
  assert (∀ l, let s2 := Database.advance s1
                 (fst (SavingsGoal.sql_add_amount goal_id amount now (db s1))) l in
               SavingsGoal.find_by_id goal_id e s2 = (Ok x, s') →
               db s' = fst (SavingsGoal.sql_add_amount goal_id amount now (db s))
               ∧ x = stored_goal goal_id (db s')) as Hread.
  { intros l s2.
    destruct (decide (faults e (calls s2) = NoFault)) as [Hf|Hf].
    - rewrite find_by_id_ok by exact Hf. intros Heq.
      assert (x = stored_goal goal_id (db s2)) as -> by congruence.
      assert (s' = Database.advance s2 (db s2) (log s2)) as -> by congruence.
      split; reflexivity.
    - rewrite find_by_id_raises by exact Hf. discriminate. }
  destruct (execute_cases (SavingsGoal.sql_add_amount goal_id amount now) e s1)
    as [(_ & _ & ->)|[(_ & ->)|(_ & ->)]].
  - discriminate.
  - apply Hread.
  - apply Hread.
Qed.

(** X8.  A deposit that returns has changed, of the goal, its currentAmount
    and its updatedAt (now the clock reading of the call) and nothing else,
    and has left every other goal as it was stored. *)
Theorem add_amount_frame (goal_id : Z) (amount : Qc) (e : env) (s s' : state)
    (g0 : GoalRow.t) (x : option GoalRow.t) :
  stored_goal goal_id (db s) = Some g0 →
  add_amount_to_goal goal_id amount e s = (Ok x, s') →
  x = Some (GoalRow.mk (id g0) (name g0) (targetAmount g0)
              (currentAmount g0 + amount)%Qc (deadline g0) (userId g0)
              (createdAt g0) (isoformat e (clock e (ticks s))))
  ∧ stored_goal goal_id (db s') = x
  ∧ (∀ other, other ≠ goal_id →
       stored_goal other (db s') = stored_goal other (db s)).
Proof.
  intros Hg0 Hrun.
  destruct (add_amount_to_goal_ok_inv _ _ _ _ _ _ Hrun) as [Hdb Hx].
  rewrite Hx, Hdb. rewrite stored_after_add_amount, Hg0.
  split; [reflexivity|]. split; [reflexivity|].
  intros other Hne. apply stored_other_after_add_amount, Hne.
Qed.

(** X8 at the sample goal 1. *)
Lemma add_amount_frame_witness :
  ∃ g' s',
    add_amount_to_goal 1 (Qc_of_Z 500) sample_env sample_state = (Ok (Some g'), s')
    ∧ name g' = "Emergency Fund"
    ∧ updatedAt g' = "2025-12-30T09:00:00"
    ∧ stored_goal 2 (db s') = Some goal_bike.
Proof.
  destruct (add_amount_to_goal 1 (Qc_of_Z 500) sample_env sample_state)
    as [[x|err] s'] eqn:Hrun; [|exfalso; revert Hrun; by_evaluation].
  destruct (add_amount_frame 1 (Qc_of_Z 500) sample_env sample_state s'
              goal_fund x eq_refl Hrun) as (Hx & _ & Hother).
  rewrite Hx. do 2 eexists. split; [reflexivity|]. repeat split.
  rewrite Hother by discriminate. reflexivity.
Defined.

(** X9.  A deposit is not atomic with its read-back: when the UPDATE is
    committed and the lookup that follows fails, the call raises the storage
    error although the goal's currentAmount has been raised by the amount. *)
Theorem add_amount_committed_before_read_back (goal_id : Z) (amount : Qc)
    (e : env) (s : state) (g0 : GoalRow.t) :
  (0 < amount)%Qc →
  stored_goal goal_id (db s) = Some g0 →
  faults e (calls s) = NoFault →
  faults e (S (calls s)) ≠ NoFault →
  ∃ s' g',
    add_amount_to_goal goal_id amount e s = (Raise StorageError, s')
    ∧ stored_goal goal_id (db s') = Some g'
    ∧ currentAmount g' = (currentAmount g0 + amount)%Qc.
Proof.
  intros Hpos Hg0 Hf1 Hf2. unfold add_amount_to_goal.
  rewrite bool_decide_eq_false_2 by (apply Qclt_not_le, Hpos).
  unfold SavingsGoal.add_amount, bind, now_isoformat.
  rewrite execute_ok by exact Hf1. rewrite find_by_id_raises by exact Hf2.
  unfold Database.fail, Database.advance. cbn [db calls ticks log].
  do 2 eexists. split; [reflexivity|]. cbn [db].
  rewrite stored_after_add_amount, Hg0. split; reflexivity.
Qed.

(** X9 with a driver that fails at the second gateway call. *)
Lemma add_amount_committed_before_read_back_witness :
  ∃ s' g',
    add_amount_to_goal 1 (Qc_of_Z 500) execute_fault_env sample_state
      = (Raise StorageError, s')
    ∧ stored_goal 1 (db s') = Some g'
    ∧ currentAmount g' = (Qc_of_Z 2500000 + Qc_of_Z 500)%Qc.
Proof.
  assert (0 < Qc_of_Z 500)%Qc as Hpos by by_evaluation.
  apply (add_amount_committed_before_read_back 1 (Qc_of_Z 500)
           execute_fault_env sample_state goal_fund Hpos eq_refl eq_refl).
  discriminate.
Defined.

End GoalOperations.

(** ** Listings: order, filter and limit *)

Section Listings.

Lemma ascii_compare_lt_trans (a b c : Ascii.ascii) :
  Ascii.compare a b = Lt → Ascii.compare b c = Lt → Ascii.compare a c = Lt.
Proof. unfold Ascii.compare. rewrite !N.compare_lt_iff. lia. Qed.

Lemma string_compare_lt_trans (s1 : string) :
  ∀ s2 s3, String.compare s1 s2 = Lt → String.compare s2 s3 = Lt →
           String.compare s1 s3 = Lt.
Proof.
  induction s1 as [|a s1 IH]; intros [|b s2] [|c s3]; cbn; try done.
  destruct (Ascii.compare a b) eqn:Hab; try done;
    destruct (Ascii.compare b c) eqn:Hbc; try done; intros H1 H2.
  - apply Ascii.compare_eq_iff in Hab, Hbc. subst.
    assert (Ascii.compare c c = Eq) as ->
      by (unfold Ascii.compare; apply N.compare_refl).
    eauto.
  - apply Ascii.compare_eq_iff in Hab. subst. rewrite Hbc. done.
  - apply Ascii.compare_eq_iff in Hbc. subst. rewrite Hab. done.
  - rewrite (ascii_compare_lt_trans _ _ _ Hab Hbc). done.
Qed.

Lemma string_leb_trans (s1 s2 s3 : string) :
  String.leb s1 s2 = true → String.leb s2 s3 = true → String.leb s1 s3 = true.
Proof.
  unfold String.leb.
  destruct (String.compare s1 s2) eqn:H12; try done;
    destruct (String.compare s2 s3) eqn:H23; try done; intros _ _.
  - apply String.compare_eq_iff in H12, H23. subst.
    destruct (String.compare s3 s3) eqn:H; try done.
    pose proof (String.compare_antisym s3 s3) as Ha. rewrite H in Ha. done.
  - apply String.compare_eq_iff in H12. subst. rewrite H23. done.
  - apply String.compare_eq_iff in H23. subst. rewrite H12. done.
  - rewrite (string_compare_lt_trans _ _ _ H12 H23). done.
Qed.

Lemma string_ltb_leb (s1 s2 : string) :
  String.ltb s1 s2 = true → String.leb s1 s2 = true.
Proof. unfold String.ltb, String.leb. destruct (String.compare s1 s2); done. Qed.

Lemma string_not_ltb_leb (s1 s2 : string) :
  String.ltb s1 s2 = false → String.leb s2 s1 = true.
Proof.
  unfold String.ltb, String.leb. rewrite (String.compare_antisym s2 s1).
  destruct (String.compare s1 s2); done.
Qed.

Context {A : Type} (key : A → string).

Lemma insert_desc_perm (x : A) (l : list A) : insert_desc key x l ≡ₚ x :: l.
Proof.
  induction l as [|y l IH]; cbn [insert_desc]; [reflexivity|].
  destruct (String.ltb (key x) (key y)); [|reflexivity].
  rewrite IH. apply Permutation_swap.
Qed.

Lemma order_by_desc_perm (l : list A) : order_by_desc key l ≡ₚ l.
Proof.
  unfold order_by_desc. induction l as [|x l IH]; cbn [foldr]; [reflexivity|].
  rewrite insert_desc_perm, IH. reflexivity.
Qed.

Lemma insert_desc_sorted (x : A) (l : list A) :
  StronglySorted (newer_first key) l →
  StronglySorted (newer_first key) (insert_desc key x l).
Proof.
  induction 1 as [|y l Hs IH Hall]; cbn [insert_desc].
  - repeat constructor.
  - destruct (String.ltb (key x) (key y)) eqn:Hlt.
    + constructor; [exact IH|].
      rewrite insert_desc_perm. constructor; [|exact Hall].
      apply string_ltb_leb, Hlt.
    + apply string_not_ltb_leb in Hlt.
      constructor; [constructor; assumption|].
      constructor; [exact Hlt|].
      eapply List.Forall_impl; [|exact Hall]. intros z Hz.
      unfold newer_first in *. eapply string_leb_trans; eassumption.
Qed.

Lemma order_by_desc_sorted (l : list A) :
  StronglySorted (newer_first key) (order_by_desc key l).
Proof.
  unfold order_by_desc. induction l as [|x l IH]; cbn [foldr].
  - constructor.
  - apply insert_desc_sorted, IH.
Qed.





End Listings.

Section ListingTheorems.
Import SavingsService.

(** X10.  [get_all_goals], with a working gateway, lists goals newest first
    by createdAt and changes nothing.  Without an owner, or with the empty
    string as owner, it lists every stored goal; with any other owner it
    lists exactly the goals whose userId is that owner. *)
Theorem get_all_goals_listing (user_id : option string) (e : env) (s : state) :
  faults e (calls s) = NoFault →
  ∃ l s',
    get_all_goals user_id e s = (Ok l, s')
    ∧ db s' = db s
    ∧ StronglySorted (newer_first GoalRow.createdAt) l
    ∧ (user_id = None ∨ user_id = Some "" → l ≡ₚ tbl_SavingsGoal (db s))
    ∧ (∀ u, user_id = Some u → u ≠ "" →
         l ≡ₚ filter (fun g => GoalRow.userId g = Some u)
                (tbl_SavingsGoal (db s))).
Proof.
  intros Hf. unfold get_all_goals. rewrite find_all_ok by exact Hf.
  do 2 eexists. split; [reflexivity|]. split; [reflexivity|].
  unfold matching_goals, SavingsGoal.sql_select_by_user,
    SavingsGoal.sql_select_all. split; [|split].
  - destruct (truthy_str user_id); apply order_by_desc_sorted.
  - intros [->| ->]; cbn; apply order_by_desc_perm.
  - intros u -> Hu. cbn [truthy_str]. destruct (String.eqb_spec u "") as [->|_];
      [destruct Hu; reflexivity|].
    cbn. apply order_by_desc_perm.
Qed.

(** X10 for the owner "u1" of the sample state. *)
Lemma get_all_goals_listing_witness :
  ∃ l s', get_all_goals (Some "u1") sample_env sample_state = (Ok l, s')
        ∧ l ≡ₚ [goal_fund].
Proof.
  destruct (get_all_goals_listing (Some "u1") sample_env sample_state eq_refl)
    as (l & s' & Hrun & _ & _ & _ & Hfilter).
  exists l, s'. split; [exact Hrun|].
  rewrite (Hfilter "u1" eq_refl) by discriminate. reflexivity.
Defined.





End ListingTheorems.

(** ** The summary and the report as a whole *)

Section Aggregates.
Import GoalRow SavingsService.

Lemma progress_of_all_inv (gs : list GoalRow.t) (ps : list GoalProgress) :
  progress_of_all gs = Ok ps →
  map goal ps = gs
  ∧ Forall (fun p => calculate_progress (goal p) = Ok p) ps
  ∧ length (filter (fun p => isComplete p = true) ps)
    = length (filter (fun g => (targetAmount g <= currentAmount g)%Qc) gs).
Proof.
  revert ps. induction gs as [|g gs IH]; intros ps; cbn [progress_of_all].
  - intros [= <-]. repeat split. constructor.
  - destruct (calculate_progress_total g) as (x & _ & Hp). rewrite Hp.
    destruct (progress_of_all gs) as [ps'|err]; [|discriminate].
    intros [= <-]. destruct (IH ps' eq_refl) as (Hmap & Hall & Hlen).
    cbn [map goal]. rewrite Hmap. split; [reflexivity|]. split.
    + constructor; [exact Hp | exact Hall].
    + rewrite !filter_cons. cbn [isComplete].
      destruct (decide (targetAmount g <= currentAmount g)%Qc) as [Hc|Hc].
      * rewrite decide_True by (apply bool_decide_eq_true_2, Hc).
        cbn [length]. rewrite Hlen. reflexivity.
      * rewrite decide_False
          by (rewrite bool_decide_eq_false_2 by exact Hc; discriminate).
        exact Hlen.
Qed.

(** What [get_summary] returns, read off the goals it loaded. *)
Lemma get_summary_inv (user_id : option string) (e : env) (s s' : state)
    (sm : Summary) :
  get_summary user_id e s = (Ok sm, s') →
  ∃ gs x ps,
    SavingsGoal.find_all user_id e s = (Ok gs, s')
    ∧ overall (py_sum (map targetAmount gs)) (py_sum (map currentAmount gs)) = Ok x
    ∧ progress_of_all gs = Ok ps
    ∧ sm = mk_summary (Z.of_nat (length gs))
             (Z.of_nat (length (filter
                (fun g => (targetAmount g <= currentAmount g)%Qc) gs)))
             (py_sum (map targetAmount gs)) (py_sum (map currentAmount gs))
             (py_round x 1) ps.
Proof.
  unfold get_summary, bind at 1.
  destruct (SavingsGoal.find_all user_id e s) as [[gs|err] s1]; [|discriminate].
  destruct (overall_total (py_sum (map targetAmount gs))
              (py_sum (map currentAmount gs))) as (x & Hx & _).
  destruct (progress_of_all_total gs) as (ps & Hps & _).
  unfold bind, lift, ret. rewrite Hx, Hps. intros [= <- <-].
  exists gs, x, ps. auto.
Qed.

Lemma find_all_reads (user_id : option string) (e : env) (s s' : state)
    (gs : list GoalRow.t) :
  SavingsGoal.find_all user_id e s = (Ok gs, s') →
  db s' = db s
  ∧ (faults e (calls s) = NoFault → gs = matching_goals user_id (db s)).
Proof.
  destruct (find_all_cases user_id e s)
    as [(_ & _ & ->)|[(Hf & ->)|(Hf & ->)]]; [discriminate| |];
    intros [= <- <-]; split; try reflexivity; congruence.
Qed.

(** X13.  The summary is consistent with its own list of goals: totalGoals
    is the number of projections, completedGoals the number of them that
    are complete (so it lies between 0 and totalGoals), totalTarget and
    totalCurrent are the sums over them, and each projection is
    [calculate_progress] of its goal.  With a working gateway the goals are
    those the owner filter selects, in the order of [find_all].  The
    database is not changed. *)
Theorem get_summary_consistent (user_id : option string) (e : env)
    (s s' : state) (sm : Summary) :
  get_summary user_id e s = (Ok sm, s') →
  db s' = db s
  ∧ totalGoals sm = Z.of_nat (length (goals sm))
  ∧ completedGoals sm =
      Z.of_nat (length (filter (fun p => isComplete p = true) (goals sm)))
  ∧ 0 <= completedGoals sm <= totalGoals sm
  ∧ totalTarget sm = py_sum (map (fun p => targetAmount (goal p)) (goals sm))
  ∧ totalCurrent sm = py_sum (map (fun p => currentAmount (goal p)) (goals sm))
  ∧ Forall (fun p => calculate_progress (goal p) = Ok p) (goals sm)
  ∧ (faults e (calls s) = NoFault →
     map goal (goals sm) = matching_goals user_id (db s)).
Proof.
  intros Hrun.
  destruct (get_summary_inv _ _ _ _ _ Hrun) as (gs & x & ps & Hload & _ & Hps & ->).
  destruct (progress_of_all_inv _ _ Hps) as (Hmap & Hall & Hlen).
  destruct (find_all_reads _ _ _ _ _ Hload) as [Hdb Hgs].
  cbn [totalGoals completedGoals totalTarget totalCurrent goals].
  split; [exact Hdb|]. rewrite <- Hlen, <- Hmap, !length_map, <- !list_fmap_compose.
  repeat split; auto.
  - lia.
  - apply inj_le. rewrite <- (length_map goal ps). rewrite Hmap, Hlen.
    apply length_filter.
  - intros Hf. rewrite Hmap. apply Hgs, Hf.
Qed.

(** X13 at the sample state: two goals, one of them complete. *)
Lemma get_summary_consistent_witness :
  ∃ sm s', get_summary None sample_env sample_state = (Ok sm, s')
         ∧ totalGoals sm = 2 ∧ completedGoals sm = 1
         ∧ map goal (goals sm) = [goal_bike; goal_fund].
Proof.
  destruct (get_summary None sample_env sample_state) as [[sm|err] s'] eqn:Hrun;
    [|exfalso; revert Hrun; by_evaluation].
  destruct (get_summary_consistent None sample_env sample_state s' sm Hrun)
    as (_ & Htot & Hdone & _ & _ & _ & _ & Hgoals).
  specialize (Hgoals eq_refl). exists sm, s'. split; [reflexivity|].
  split; [|split].
  - rewrite Htot, <- (length_map goal), Hgoals. reflexivity.
  - destruct (get_summary_inv _ _ _ _ _ Hrun)
      as (gs & x & ps & Hload & _ & _ & ->).
    destruct (find_all_reads _ _ _ _ _ Hload) as [_ Hgs].
    rewrite (Hgs eq_refl). by_evaluation.
  - rewrite Hgoals. reflexivity.
Defined.



End Aggregates.

Section ReportShape.
Import GoalRow SavingsService.

(** The [try] statement of the report always comes out with three totals,
    those of some list of transactions (none on the fallback), and changes
    nothing. *)
Lemma totals_always (months : Z) (e : env) (s1 : state) :
  ∃ rs s2,
    try_except (transaction_totals months)
      (fun _ => ret (0%Qc, 0%Qc, ∅)) e s1
    = (Ok (py_sum (amounts_of_type "INCOME" rs),
           py_sum (amounts_of_type "EXPENSE" rs),
           fold_left add_expense rs ∅), s2)
    ∧ db s2 = db s1.
Proof.
  unfold try_except, transaction_totals, bind at 1.
  pose proof (cutoff_date_state months e s1) as Hst.
  destruct (cutoff_date months e s1) as [[c|x] s1']; cbn [snd] in Hst; subst s1'.
  - unfold bind, Transaction.find_all. cbn [truthy_int].
    destruct (execute_cases (Transaction.sql_select_all 1000) e
                (mk_state (db s1) (calls s1) (S (ticks s1)) (log s1)))
      as [(_ & _ & ->)|[(_ & ->)|(_ & ->)]].
    + exists [], (Database.advance
                   (mk_state (db s1) (calls s1) (S (ticks s1)) (log s1)) (db s1)
                   (GatewayRaised (calls s1) (faults e (calls s1)) :: log s1)).
      split; reflexivity.
    + exists []. eexists. split; reflexivity.
    + eexists. eexists. split; reflexivity.
  - exists []. eexists. split; reflexivity.
Qed.

(** What the report returns, read off the goals it loaded and the
    transactions it summed. *)
Lemma report_inv (user_id : option string) (months : Z) (e : env)
    (s s' : state) (r : FinancialReport) :
  get_financial_data_for_ai user_id months e s = (Ok r, s') →
  ∃ gs rs ai ae,
    monthly_avg (py_sum (amounts_of_type "INCOME" rs)) months = Ok ai
    ∧ monthly_avg (py_sum (amounts_of_type "EXPENSE" rs)) months = Ok ae
    ∧ db s' = db s
    ∧ r = mk_report (py_sum (amounts_of_type "INCOME" rs))
            (py_sum (amounts_of_type "EXPENSE" rs)) ai ae
            (py_sum (map currentAmount gs)) gs
            (fold_left add_expense rs ∅) months ai ae gs.
Proof.
  unfold get_financial_data_for_ai, bind at 1.
  destruct (SavingsGoal.find_all user_id e s) as [[gs|err] s1] eqn:Hload;
    [|discriminate].
  destruct (find_all_reads _ _ _ _ _ Hload) as [Hdb _].
  destruct (totals_always months e s1) as (rs & s2 & Htry & Hdb2).
  unfold bind at 1. rewrite Htry.
  destruct (monthly_avg_total (py_sum (amounts_of_type "EXPENSE" rs)) months)
    as (ae & Hae & _).
  destruct (monthly_avg_total (py_sum (amounts_of_type "INCOME" rs)) months)
    as (ai & Hai & _).
  unfold bind, lift, ret. rewrite Hae, Hai. intros [= <- <-].
  exists gs, rs, ai, ae. repeat split; try assumption. congruence.
Qed.

(** X15.  [get_financial_data_for_ai] raises only when the retrieval of the
    goals raises, and then the storage error; otherwise it returns, for any
    number of months and whatever happens to the retrieval of the
    transactions.  The report it returns repeats its values under the alias
    names (monthly_income, monthly_expense, other_goals), carries the
    requested period, and its current_savings is the sum of the
    currentAmount of its goals.  The database is not changed. *)
Theorem report_always_returns (user_id : option string) (months : Z)
    (e : env) (s : state) :
  (faults e (calls s) ≠ NoFault ∧ faults e (calls s) ≠ FetchFault →
   fst (get_financial_data_for_ai user_id months e s) = Raise StorageError)
  ∧ (faults e (calls s) = NoFault ∨ faults e (calls s) = FetchFault →
     ∃ r s',
       get_financial_data_for_ai user_id months e s = (Ok r, s')
       ∧ db s' = db s
       ∧ period_months r = months
       ∧ monthly_income r = monthly_avg_income r
       ∧ monthly_expense r = monthly_avg_expense r
       ∧ other_goals r = savings_goals r
       ∧ current_savings r = py_sum (map currentAmount (savings_goals r))).
Proof.
  split.
  - intros [Hn Hfe]. unfold get_financial_data_for_ai, bind at 1.
    destruct (find_all_cases user_id e s)
      as [(_ & _ & ->)|[(Hf & _)|(Hf & _)]]; [reflexivity | done | done].
  - intros Hf.
    destruct (get_financial_data_for_ai user_id months e s) as [[r|err] s'] eqn:Hrun.
    + destruct (report_inv _ _ _ _ _ _ Hrun) as (gs & rs & ai & ae & _ & _ & Hdb & ->).
      do 2 eexists. split; [reflexivity|]. split; [exact Hdb|]. cbn.
      repeat split.
    + exfalso. revert Hrun. unfold get_financial_data_for_ai, bind at 1.
      destruct (find_all_cases user_id e s)
        as [(Hn & Hfe & _)|[(_ & ->)|(_ & ->)]]; [destruct Hf; done| |];
        unfold bind at 1;
        match goal with |- context [try_except _ _ e ?s1] =>
          destruct (totals_always months e s1) as (rs & s2 & -> & _) end;
        destruct (monthly_avg_total (py_sum (amounts_of_type "EXPENSE" rs)) months)
          as (ae & Hae & _);
        destruct (monthly_avg_total (py_sum (amounts_of_type "INCOME" rs)) months)
          as (ai & Hai & _);
        unfold bind, lift, ret; rewrite Hae, Hai; discriminate.
Qed.








End ReportShape.

(** ** What the operations leave alone *)

Section Keeping.
Context (R : relation database) `{!PreOrder R}.

Lemma keeps_ret {A} (a : A) : keeps R (ret a).
Proof. intros e s. reflexivity. Qed.

Lemma keeps_raise {A} (x : exn) : keeps R (@raise A x).
Proof. intros e s. reflexivity. Qed.

Lemma keeps_lift {A} (r : result A) : keeps R (lift r).
Proof. intros e s. reflexivity. Qed.

Lemma keeps_now : keeps R now_isoformat.
Proof. intros e s. reflexivity. Qed.

Lemma keeps_datetime_now : keeps R datetime_now.
Proof. intros e s. reflexivity. Qed.

Lemma keeps_reader {A} (f : env → A) : keeps R (fun e s => (Ok (f e), s)).
Proof. intros e s. reflexivity. Qed.

Lemma keeps_bind {A B} (m : M A) (k : A → M B) :
  keeps R m → (∀ a, keeps R (k a)) → keeps R (bind m k).
Proof.
  intros Hm Hk e s. unfold bind. specialize (Hm e s).
  destruct (m e s) as [[a|x] s1]; cbn [snd] in *; [|exact Hm].
  etransitivity; [exact Hm | apply Hk].
Qed.

Lemma keeps_try {A} (m : M A) (h : exn → M A) :
  keeps R m → (∀ x, keeps R (h x)) → keeps R (try_except m h).
Proof.
  intros Hm Hh e s. unfold try_except. specialize (Hm e s).
  destruct (m e s) as [[a|x] s1]; cbn [snd] in *; [exact Hm|].
  etransitivity; [exact Hm | apply Hh].
Qed.

Lemma keeps_execute {T} (q : statement T) :
  (∀ d, R d (fst (q d))) → keeps R (Database.execute q).
Proof.
  intros Hq e s.
  destruct (execute_cases q e s) as [(_ & _ & ->)|[(_ & ->)|(_ & ->)]];
    cbn; [reflexivity | apply Hq | apply Hq].
Qed.

Lemma keeps_execute_one {T} (q : statement T) :
  (∀ d, R d (fst (q d))) → keeps R (Database.execute_one q).
Proof.
  intros Hq e s. destruct (decide (faults e (calls s) = NoFault)) as [Hf|Hf].
  - rewrite execute_one_ok by exact Hf. apply Hq.
  - rewrite execute_one_raises by exact Hf. reflexivity.
Qed.

Lemma keeps_execute_insert (q : insert_statement) :
  (∀ d, R d (fst (q d))) → keeps R (Database.execute_insert q).
Proof.
  intros Hq e s. unfold Database.execute_insert.
  destruct (faults e (calls s)); try reflexivity;
    specialize (Hq (db s)); destruct (q (db s)); exact Hq.
Qed.

End Keeping.

(** Code over the gateway keeps what each of its statements keeps; [side]
    settles the statements. *)
Ltac keeping side :=
  repeat first
    [ solve [apply _]
    | apply keeps_bind
    | apply keeps_ret
    | apply keeps_raise
    | apply keeps_lift
    | apply keeps_now
    | apply keeps_datetime_now
    | apply keeps_try
    | apply keeps_execute; [solve [apply _] | solve [side]]
    | apply keeps_execute_one; [solve [apply _] | solve [side]]
    | apply keeps_execute_insert; [solve [apply _] | solve [side]]
    | apply (keeps_reader _ (fun e => generate_password_hash e _))
    | apply (keeps_reader _ (fun e => isoformat e _))
    | match goal with
      | |- keeps _ (if ?c then _ else _) => destruct c
      | |- keeps _ (match ?x with Some _ => _ | None => _ end) => destruct x
      | |- keeps _ (match ?x with pair _ _ => _ end) => destruct x
      | |- ∀ _, _ => intro
      end ].

Ltac unfold_operations :=
  unfold discard, SavingsService.create_goal, SavingsService.get_all_goals,
    SavingsService.get_goal_by_id, SavingsService.update_goal,
    SavingsService.delete_goal, SavingsService.add_amount_to_goal,
    SavingsService.get_summary, SavingsService.get_financial_data_for_ai,
    SavingsService.transaction_totals, SavingsService.cutoff_date,
    SavingsGoal.create, SavingsGoal.find_all, SavingsGoal.update,
    SavingsGoal.delete, SavingsGoal.add_amount, SavingsGoal.find_by_id,
    Account.create, Account.find_all, Account.update_balance,
    Account.find_by_id, Transaction.create, Transaction.find_all,
    Transaction.delete, Transaction.find_by_id, User.create,
    User.find_by_username, User.find_by_email, User.update_name,
    User.find_by_id.

Section Frames.

#[local] Instance unchanged_outside_preorder (t : table) :
  PreOrder (unchanged_outside t).
Proof.
  split.
  - intros d. repeat split.
  - intros d1 d2 d3 (G1 & A1 & T1 & U1) (G2 & A2 & T2 & U2).
    repeat split; intros Ht;
      [rewrite G2, G1 | rewrite A2, A1 | rewrite T2, T1 | rewrite U2, U1]; auto.
Qed.

(** X18.  The operations that only look things up or aggregate leave the
    database exactly as it was, whatever the driver does: every listing and
    lookup of the four repositories, [get_all_goals], [get_goal_by_id],
    [get_summary] and [get_financial_data_for_ai]. *)
Theorem read_only_operations (o : operation) (e : env) (s : state) :
  reads_only o = true → db (snd (run o e s)) = db s.
Proof.
  intros Hro. symmetry. revert e s. change (keeps eq (run o)).
  destruct o; try discriminate; cbn [run]; unfold_operations;
    keeping ltac:(intros; reflexivity).
Qed.

(** X18 for the report at the sample state. *)
Lemma read_only_operations_witness :
  db (snd (run (Service_get_financial_data_for_ai None 6) sample_env sample_state))
  = sample_db.
Proof.
  apply (read_only_operations (Service_get_financial_data_for_ai None 6)
           sample_env sample_state eq_refl).
Defined.

(** X19.  Every operation writes to its own table at most: an operation on
    goals (of the repository or of the service) leaves the accounts, the
    transactions and the users as they were, and likewise for the
    operations of the other three repositories. *)
Theorem operations_stay_in_their_table (o : operation) (e : env) (s : state) :
  unchanged_outside (table_of o) (db s) (db (snd (run o e s))).
Proof.
  revert e s. change (keeps (unchanged_outside (table_of o)) (run o)).
  destruct o; cbn [run table_of]; unfold_operations;
    keeping ltac:(intros d; unfold unchanged_outside; cbn;
                  repeat split; intros; congruence).
Qed.

End Frames.


Section Invariants.
Import GoalRow SavingsService.

#[local] Instance ids_stay_unique_preorder : PreOrder ids_stay_unique.
Proof. split; [intros d H; exact H | intros d1 d2 d3 H1 H2 H; auto]. Qed.

Lemma ids_after_insert (name : string) (target_amount : Qc)
    (deadline user_id : option string) (now : string) (d : database) :
  ids_stay_unique d
    (fst (SavingsGoal.sql_insert name target_amount deadline user_id now d)).
Proof.
  intros Hd. unfold goal_ids, SavingsGoal.sql_insert.
  cbn [fst SavingsGoal.with_table tbl_SavingsGoal].
  rewrite map_app. cbn [map id]. apply list.NoDup_app. split; [exact Hd|].
  split; [|apply NoDup_singleton].
  intros i Hi Hnew. apply list_elem_of_singleton in Hnew. subst i.
  exact (next_rowid_fresh _ Hi).
Qed.

Lemma ids_after_update (goal_id : Z) (name : option string)
    (target_amount current_amount : option Qc) (deadline : option string)
    (now : string) (d : database) :
  ids_stay_unique d
    (fst (SavingsGoal.sql_update goal_id name target_amount current_amount
            deadline now d)).
Proof.
  intros Hd. unfold goal_ids, SavingsGoal.sql_update.
  cbn [fst SavingsGoal.with_table tbl_SavingsGoal].
  rewrite map_map. erewrite map_ext; [exact Hd|].
  intros g. destruct (SavingsGoal.has_id goal_id g); reflexivity.
Qed.

Lemma ids_after_add_amount (goal_id : Z) (amount : Qc) (now : string)
    (d : database) :
  ids_stay_unique d (fst (SavingsGoal.sql_add_amount goal_id amount now d)).
Proof.
  intros Hd. unfold goal_ids, SavingsGoal.sql_add_amount.
  cbn [fst SavingsGoal.with_table tbl_SavingsGoal].
  rewrite map_map. erewrite map_ext; [exact Hd|].
  intros g. destruct (SavingsGoal.has_id goal_id g); reflexivity.
Qed.

Lemma ids_after_delete (goal_id : Z) (d : database) :
  ids_stay_unique d (fst (SavingsGoal.sql_delete goal_id d)).
Proof.
  intros Hd. unfold goal_ids, SavingsGoal.sql_delete.
  cbn [fst SavingsGoal.with_table tbl_SavingsGoal].
  eapply sublist_NoDup; [exact Hd|].
  apply (fmap_sublist id), sublist_filter.
Qed.

(** X20.  No operation makes two goals share an identifier: when the
    identifiers of the stored goals are pairwise distinct before an
    operation, they are after it, whether it returns or raises.  (A new goal
    gets an identifier above all those in use; updates and deposits never
    rewrite the id.) *)
Theorem goal_ids_stay_unique (o : operation) (e : env) (s : state) :
  NoDup (goal_ids (db s)) → NoDup (goal_ids (db (snd (run o e s)))).
Proof.
  revert e s. change (keeps ids_stay_unique (run o)).
  destruct o; cbn [run]; unfold_operations;
    keeping ltac:(first [ apply ids_after_insert | apply ids_after_update
                        | apply ids_after_add_amount | apply ids_after_delete
                        | intros d Hd; exact Hd ]).
Qed.

(** X20 for the creation of a goal in the sample state. *)
Lemma goal_ids_stay_unique_witness :
  NoDup (goal_ids (db (snd (run (Service_create_goal "Laptop" (Qc_of_Z 2000)
                                  None None) sample_env sample_state)))).
Proof.
  apply (goal_ids_stay_unique
           (Service_create_goal "Laptop" (Qc_of_Z 2000) None None)
           sample_env sample_state).
  by_evaluation.
Defined.




End Invariants.

(** ** Users, accounts and transactions *)

Section OtherRepositories.

(** X22.  Creating a user and checking the password: with a working gateway
    [User.create] returns the row it stored, under an identifier that was
    not in use, with the given username, name, email and phone; what it
    stores of the password is [generate_password_hash] of it, so that,
    whenever the hash function and its check agree,
    [verify_password] accepts the password against the stored hash.  The
    users stored before are unchanged. *)
Theorem user_create_round_trip (username name email password : string)
    (phone : option string) (e : env) (s : state) :
  (∀ p, check_password_hash e (generate_password_hash e p) p = true) →
  faults e (calls s) = NoFault →
  faults e (S (calls s)) = NoFault →
  ∃ u s',
    User.create username name email password phone e s = (Ok (Some u), s')
    ∧ u = UserRow.mk (next_rowid (map UserRow.id (tbl_User (db s)))) username
            name email (generate_password_hash e password) phone
            (isoformat e (clock e (ticks s))) (isoformat e (clock e (ticks s)))
    ∧ stored_user (UserRow.id u) (db s') = Some u
    ∧ fst (User.verify_password (UserRow.passwordHash u) password e s') = Ok true
    ∧ (∀ other, other ≠ UserRow.id u →
         stored_user other (db s') = stored_user other (db s)).
Proof.
  intros Hhash Hf1 Hf2. unfold User.create, bind, now_isoformat.
  rewrite execute_insert_ok by exact Hf1.
  unfold User.find_by_id. rewrite execute_one_ok by exact Hf2.
  set (now := isoformat e (clock e (ticks s))).
  set (u := UserRow.mk (next_rowid (map UserRow.id (tbl_User (db s)))) username
              name email (generate_password_hash e password) phone now now).
  assert (Forall (fun y => ¬ UserRow.id y = UserRow.id u) (tbl_User (db s)))
    as Hfresh.
  { apply list.Forall_forall. intros y Hy Hid.
    apply (next_rowid_fresh (map UserRow.id (tbl_User (db s)))).
    change (UserRow.id u ∈ map UserRow.id (tbl_User (db s))).
    rewrite <- Hid. apply list_elem_of_fmap. exists y. split; [reflexivity | exact Hy]. }
  assert (stored_user (UserRow.id u)
            (fst (User.sql_insert username name email
                    (generate_password_hash e password) phone now (db s)))
          = Some u) as Hstored.
  { unfold stored_user, User.sql_select_by_id, User.sql_insert.
    cbn [fst snd User.with_table tbl_User db].
    apply (select_appended _ _ u Hfresh). reflexivity. }
  exists u. eexists. split.
  { unfold User.sql_insert at 1. cbn [snd db Database.advance calls ticks log].
    change (next_rowid (map UserRow.id (tbl_User (db s)))) with (UserRow.id u).
    fold (stored_user (UserRow.id u)
            (fst (User.sql_insert username name email
                    (generate_password_hash e password) phone now (db s)))).
    rewrite Hstored. reflexivity. }
  split; [reflexivity|]. split; [exact Hstored|]. split.
  - unfold User.verify_password. cbn [fst UserRow.passwordHash u].
    rewrite Hhash. reflexivity.
  - intros other Hne. cbn [db Database.advance].
    unfold stored_user, User.sql_select_by_id, User.sql_insert.
    cbn [fst snd User.with_table tbl_User db].
    rewrite select_not_appended; [reflexivity|].
    intros Hid. exact (Hne (eq_sym Hid)).
Qed.

(** X22 in the sample environment, whose hash is the identity. *)
Lemma user_create_round_trip_witness :
  ∃ u s',
    User.create "ann" "Ann" "ann@example.org" "secret" None sample_env
      sample_state = (Ok (Some u), s')
    ∧ UserRow.id u = 1
    ∧ fst (User.verify_password (UserRow.passwordHash u) "secret" sample_env s')
      = Ok true.
Proof.
  destruct (user_create_round_trip "ann" "Ann" "ann@example.org" "secret" None
              sample_env sample_state)
    as (u & s' & Hrun & Hu & _ & Hverify & _);
    [intros p; apply String.eqb_refl | reflexivity | reflexivity |].
  exists u, s'. split; [exact Hrun|]. split; [rewrite Hu; reflexivity | exact Hverify].
Defined.





(** X25.  Creating an account and reading it back: with a working gateway
    [Account.create] returns the row it stored, under an identifier that was
    not in use, with the given name, bank and account number, with the
    starting balance as currentBalance and createdAt equal to updatedAt; the
    accounts stored before are unchanged. *)
Theorem account_create_round_trip (name bank account_number : string)
    (starting_balance : Qc) (e : env) (s : state) :
  faults e (calls s) = NoFault →
  faults e (S (calls s)) = NoFault →
  ∃ a s',
    Account.create name bank account_number starting_balance e s
      = (Ok (Some a), s')
    ∧ a = AccountRow.mk (next_rowid (map AccountRow.id (tbl_Account (db s))))
            name bank account_number starting_balance
            (isoformat e (clock e (ticks s))) (isoformat e (clock e (ticks s)))
    ∧ stored_account (AccountRow.id a) (db s') = Some a
    ∧ (∀ other, other ≠ AccountRow.id a →
         stored_account other (db s') = stored_account other (db s)).
Proof.
  intros Hf1 Hf2. unfold Account.create, bind, now_isoformat.
  rewrite execute_insert_ok by exact Hf1.
  unfold Account.find_by_id. rewrite execute_one_ok by exact Hf2.
  set (now := isoformat e (clock e (ticks s))).
  set (a := AccountRow.mk (next_rowid (map AccountRow.id (tbl_Account (db s))))
              name bank account_number starting_balance now now).
  assert (Forall (fun y => ¬ AccountRow.id y = AccountRow.id a)
            (tbl_Account (db s))) as Hfresh.
  { apply list.Forall_forall. intros y Hy Hid.
    apply (next_rowid_fresh (map AccountRow.id (tbl_Account (db s)))).
    change (AccountRow.id a ∈ map AccountRow.id (tbl_Account (db s))).
    rewrite <- Hid. apply list_elem_of_fmap. exists y. split; [reflexivity | exact Hy]. }
  assert (stored_account (AccountRow.id a)
            (fst (Account.sql_insert name bank account_number starting_balance
                    now (db s))) = Some a) as Hstored.
  { unfold stored_account, Account.sql_select_by_id, Account.sql_insert.
    cbn [fst snd Account.with_table tbl_Account db].
    apply (select_appended _ _ a Hfresh). reflexivity. }
  exists a. eexists. split.
  { unfold Account.sql_insert at 1. cbn [snd db Database.advance calls ticks log].
    change (next_rowid (map AccountRow.id (tbl_Account (db s))))
      with (AccountRow.id a).
    fold (stored_account (AccountRow.id a)
            (fst (Account.sql_insert name bank account_number starting_balance
                    now (db s)))).
    rewrite Hstored. reflexivity. }
  split; [reflexivity|]. split; [exact Hstored|].
  intros other Hne. cbn [db Database.advance].
  unfold stored_account, Account.sql_select_by_id, Account.sql_insert.
  cbn [fst snd Account.with_table tbl_Account db].
  rewrite select_not_appended; [reflexivity|].
  intros Hid. exact (Hne (eq_sym Hid)).
Qed.

(** X25 at the sample state. *)
Lemma account_create_round_trip_witness :
  ∃ a s',
    Account.create "Main" "ACB" "0123" (Qc_of_Z 500000) sample_env sample_state
      = (Ok (Some a), s')
    ∧ AccountRow.id a = 1
    ∧ AccountRow.currentBalance a = Qc_of_Z 500000.
Proof.
  destruct (account_create_round_trip "Main" "ACB" "0123" (Qc_of_Z 500000)
              sample_env sample_state eq_refl eq_refl)
    as (a & s' & Hrun & Ha & _).
  exists a, s'. split; [exact Hrun|]. rewrite Ha. split; reflexivity.
Defined.





End OtherRepositories.

(** ** The gateway, and goals through their life *)

Section Lifecycle.
Import GoalRow SavingsService.


Lemma complete_goal_progress (g : GoalRow.t) :
  (targetAmount g <= currentAmount g)%Qc →
  ∃ p, calculate_progress g = Ok p
     ∧ isComplete p = true
     ∧ remaining p = 0%Qc
     ∧ ((0 < targetAmount g)%Qc → progress p = Qc_of_Z 100).
Proof.
  intros Hdone. destruct (calculate_progress_total g) as (x & Hx & Hp).
  eexists. split; [exact Hp|]. cbn [isComplete remaining progress].
  split; [apply bool_decide_eq_true_2, Hdone|]. split.
  - apply py_max_zero_iff. qc_to_q. lra.
  - intros Ht. rewrite raw_progress_positive in Hx by done.
    injection Hx as <-. unfold py_min. rewrite bool_decide_eq_false_2.
    + apply py_round_1_of_Z.
    + apply Qcle_not_lt, ratio_above; assumption.
Qed.

(** X29.  A goal that has just been created is at the start: for the row
    [create_goal] returns, [calculate_progress] gives progress 0, the whole
    target as remaining, and not complete. *)
Theorem new_goal_is_at_the_start (name : string) (target_amount : Qc)
    (deadline user_id : option string) (e : env) (s : state) :
  blank name = false →
  (0 < target_amount)%Qc →
  faults e (calls s) = NoFault →
  faults e (S (calls s)) = NoFault →
  ∃ g s',
    create_goal name target_amount deadline user_id e s = (Ok (Some g), s')
    ∧ calculate_progress g = Ok (mk_progress g 0%Qc target_amount false).
Proof.
  intros Hb Ht Hf1 Hf2. unfold create_goal. fold (blank name). rewrite Hb.
  rewrite bool_decide_eq_false_2 by (apply Qclt_not_le, Ht).
  unfold SavingsGoal.create, bind, now_isoformat.
  rewrite execute_insert_ok by exact Hf1. rewrite find_by_id_ok by exact Hf2.
  set (now := isoformat e (clock e (ticks s))).
  set (g := GoalRow.mk (next_rowid (goal_ids (db s))) name target_amount 0%Qc
              deadline user_id now now).
  assert (stored_goal (id g) (fst (SavingsGoal.sql_insert name target_amount
            deadline user_id now (db s))) = Some g) as Hstored.
  { rewrite stored_goal_unfold. unfold SavingsGoal.sql_insert.
    cbn [fst SavingsGoal.with_table tbl_SavingsGoal db].
    apply select_appended; [|apply has_id_true; reflexivity].
    apply Forall_forall. intros y Hy Hid. apply has_id_true in Hid.
    apply (next_rowid_fresh (goal_ids (db s))). change (id g ∈ goal_ids (db s)).
    rewrite <- Hid. apply list_elem_of_fmap. exists y.
    split; [reflexivity | apply list_elem_of_In, Hy]. }
  exists g. eexists. split.
  { unfold SavingsGoal.sql_insert at 1. cbn [snd db Database.advance].
    change (next_rowid (map id (tbl_SavingsGoal (db s)))) with (id g).
    rewrite Hstored. reflexivity. }
  unfold calculate_progress. cbn [targetAmount currentAmount g].
  rewrite raw_progress_positive by exact Ht.
  assert (0 / target_amount * Qc_of_Z 100 = 0)%Qc as -> by (unfold Qcdiv; ring).
  assert (py_min (Qc_of_Z 100) 0 = 0%Qc) as ->
    by (unfold py_min; rewrite bool_decide_eq_true_2 by by_evaluation; reflexivity).
  rewrite py_round_1_zero.
  assert (target_amount - 0 = target_amount)%Qc as -> by ring.
  unfold py_max. rewrite bool_decide_eq_true_2 by exact Ht.
  rewrite bool_decide_eq_false_2 by (apply Qclt_not_le, Ht). reflexivity.
Qed.

(** X29 at the sample state. *)
Lemma new_goal_is_at_the_start_witness :
  ∃ g s',
    create_goal "Laptop" (Qc_of_Z 2000) None None sample_env sample_state
      = (Ok (Some g), s')
    ∧ calculate_progress g = Ok (mk_progress g 0%Qc (Qc_of_Z 2000) false).
Proof.
  assert (0 < Qc_of_Z 2000)%Qc as Hpos by by_evaluation.
  apply (new_goal_is_at_the_start "Laptop" (Qc_of_Z 2000) None None sample_env
           sample_state eq_refl Hpos eq_refl eq_refl).
Defined.

(** X30.  Depositing at least what remains completes a goal: for a stored
    goal with a positive target, a deposit that returns and is no smaller
    than targetAmount - currentAmount gives a row that [calculate_progress]
    shows complete, with progress 100 and nothing remaining, however far
    the deposit goes past the target. *)
Theorem deposit_of_the_rest_completes (goal_id : Z) (amount : Qc) (e : env)
    (s s' : state) (g0 g' : GoalRow.t) :
  stored_goal goal_id (db s) = Some g0 →
  (0 < targetAmount g0)%Qc →
  (targetAmount g0 - currentAmount g0 <= amount)%Qc →
  add_amount_to_goal goal_id amount e s = (Ok (Some g'), s') →
  ∃ p, calculate_progress g' = Ok p
     ∧ isComplete p = true
     ∧ remaining p = 0%Qc
     ∧ progress p = Qc_of_Z 100.
Proof.
  intros Hg0 Ht Hrest Hrun.
  destruct (add_amount_to_goal_returns _ _ _ _ _ _ _ Hg0 Hrun)
    as (g1 & [= <-] & _ & Hcur & Htar).
  destruct (complete_goal_progress g') as (p & Hp & Hdone & Hrem & Hfull).
  - rewrite Hcur, Htar. qc_to_q. lra.
  - exists p. rewrite Htar in Hfull. auto.
Qed.

(** X30 at the sample goal 1, which lacks 7500000. *)
Lemma deposit_of_the_rest_completes_witness :
  ∃ g' s' p,
    add_amount_to_goal 1 (Qc_of_Z 8000000) sample_env sample_state
      = (Ok (Some g'), s')
    ∧ calculate_progress g' = Ok p
    ∧ isComplete p = true ∧ progress p = Qc_of_Z 100.
Proof.
  destruct (add_amount_to_goal 1 (Qc_of_Z 8000000) sample_env sample_state)
    as [[[g'|]|err] s'] eqn:Hrun;
    [|exfalso; revert Hrun; by_evaluation|exfalso; revert Hrun; by_evaluation].
  assert (0 < targetAmount goal_fund)%Qc as Ht by by_evaluation.
  assert (targetAmount goal_fund - currentAmount goal_fund <= Qc_of_Z 8000000)%Qc
    as Hrest by by_evaluation.
  destruct (deposit_of_the_rest_completes 1 (Qc_of_Z 8000000) sample_env
              sample_state s' goal_fund g' eq_refl Ht Hrest Hrun)
    as (p & Hp & Hdone & _ & Hfull).
  exists g', s', p. auto.
Defined.

End Lifecycle.
